(** * track_github: event retention and aggregation

    A shallow embedding of [src/app/src/main.py]: the update cycle that
    rebuilds the [github_events] table from the remote feed
    ([update_data]), and the statistics endpoint that averages the time
    between consecutive events of each type ([calculate_average_time],
    [get_db_statistics], [get_api_statistics]).

    Modelling conventions.
    - A naive [datetime] is the number of microseconds since
      0001-01-01T00:00:00, a [timedelta] a number of microseconds; both are
      integers, as in Python.
    - A Python [float] is an IEEE 754 binary64 number, computed with the
      operations of [SpecFloat] at precision 53.
    - A [dict] is an insertion-ordered association list with unique keys.
    - Exceptions are values of [exn]; code that can raise returns an
      [outcome].  The update cycle threads the database, the clock and its
      local counter through a state-and-exception monad.
    - The remote feed and the wall clock are the two inputs of a [World].
    - The database is the durable store behind the cursor: a table is the
      list of its rows in insertion order.  The engine is PostgreSQL, the
      one psycopg2 connects to: a statement it accepts is modelled by what
      the statement says, a statement it rejects raises. *)

From Stdlib Require Import ZArith List String Bool Lia Permutation Sorted SpecFloat.
Import ListNotations.
Local Open Scope string_scope.
Local Open Scope list_scope.
Local Open Scope Z_scope.

(** ** Exceptions and outcomes *)

Inductive exn : Type :=
| RequestException   (* requests: connection failure, timeout, non-2xx status *)
| ValueError         (* body that is not JSON; created_at not in the format *)
| KeyError           (* event object without the key *)
| InvalidDelta       (* Exception("Not existed delta provided in ...") *)
| ZeroDivisionError
| UndefinedTable     (* psycopg2: relation "github_events" does not exist *)
| SyntaxError.       (* psycopg2: the engine cannot parse the statement *)

Inductive outcome (A : Type) : Type :=
| Return (a : A)
| Raise (e : exn).
Arguments Return {A} a.
Arguments Raise {A} e.

Definition obind {A B} (o : outcome A) (k : A -> outcome B) : outcome B :=
  match o with
  | Return a => k a
  | Raise e => Raise e
  end.

Declare Scope outcome_scope.
Delimit Scope outcome_scope with outcome.
Notation "'let?' x ':=' c 'in' k" := (obind c (fun x => k))
  (at level 10, x name, c at level 100, k at level 200) : outcome_scope.

(** [[f(x) for x in xs]] where [f] may raise: stops at the first exception. *)
Fixpoint map_outcome {A B} (f : A -> outcome B) (xs : list A) : outcome (list B) :=
  match xs with
  | [] => Return []
  | x :: xs' =>
      (let? y := f x in
       let? ys := map_outcome f xs' in
       Return (y :: ys))%outcome
  end.

(** ** Python floats (IEEE 754 binary64) *)

Module Float64.

Definition prec : Z := 53.
Definition emax : Z := 1024.

Definition float : Type := spec_float.

Definition add : float -> float -> float := SFadd prec emax.
Definition div : float -> float -> float := SFdiv prec emax.

(** An integer as an unrounded mantissa with exponent 0. *)
Definition raw (z : Z) : float :=
  match z with
  | Z0 => S754_zero false
  | Zpos p => S754_finite false p 0
  | Zneg p => S754_finite true p 0
  end.

(** [float(z)]: the nearest binary64 number (exact below 2^53). *)
Definition of_int (z : Z) : float := binary_normalize prec emax z 0 false.

(** [a / b] on Python ints, [b <> 0]: the correctly rounded quotient.
    [SFdiv] widens the dividend until the quotient has 53 bits and keeps
    the position of the remainder, so it rounds the exact quotient of the
    two integers once. *)
Definition int_truediv (a b : Z) : float := div (raw a) (raw b).

(** The integer nearest to [a / b] ([b > 0]), ties to even. *)
Definition round_half_even_div (a b : Z) : Z :=
  let q := a / b in
  let r := a mod b in
  match 2 * r ?= b with
  | Lt => q
  | Gt => q + 1
  | Eq => if Z.even q then q else q + 1
  end.

(** [round(x, 3)] on a float: the exact binary value is rounded to three
    decimals, ties to even, and that decimal is converted back to the
    nearest float; zeros (keeping the sign), infinities and NaN are
    returned as they are. *)
Definition round3 (x : float) : float :=
  match x with
  | S754_finite s m e =>
      let thousandths :=
        match e with
        | Zneg p => round_half_even_div (Zpos m * 1000) (2 ^ Zpos p)
        | _ => Zpos m * 1000 * 2 ^ e
        end in
      match thousandths with
      | Z0 => S754_zero s
      | _ => int_truediv (if s then - thousandths else thousandths) 1000
      end
  | _ => x
  end.

Definition zero : float := S754_zero false.
Definition one : float := S754_finite false 4503599627370496 (-52).
Definition two : float := S754_finite false 4503599627370496 (-51).

End Float64.

Definition float : Type := Float64.float.

(** Values stored in the statistics: [0] (an int) or a rounded float. *)
Inductive pyval : Type :=
| PyInt (n : Z)
| PyFloat (x : float).

(** [sum(xs)] for floats [xs]: starts from the int [0] and adds from left to
    right; [0 + x] converts [0] to [0.0].  (From CPython 3.12 on, [sum] also
    carries a compensation term for the rounding errors of the additions;
    the term is zero, and the result the same, whenever the additions are
    exact.) *)
Definition py_sum (xs : list float) : pyval :=
  match xs with
  | [] => PyInt 0
  | _ => PyFloat (fold_left Float64.add xs Float64.zero)
  end.

(** [v / k] for an int [k]: true division, always a float. *)
Definition py_truediv (v : pyval) (k : Z) : outcome float :=
  if k =? 0 then Raise ZeroDivisionError
  else match v with
       | PyInt n => Return (Float64.int_truediv n k)
       | PyFloat x => Return (Float64.div x (Float64.of_int k))
       end.

(** ** Dates *)

Definition datetime : Type := Z.
Definition timedelta : Type := Z.

Definition microseconds_per_second : Z := 1000000.
Definition microseconds_per_day : Z := 86400 * microseconds_per_second.

(** [td.days]: a timedelta is normalised with [0 <= seconds < 86400], so the
    day count is the floor. *)
Definition timedelta_days (td : timedelta) : Z := td / microseconds_per_day.

(** [td.total_seconds()]: total microseconds / 10**6, an int division. *)
Definition total_seconds (td : timedelta) : float :=
  Float64.int_truediv td microseconds_per_second.

Definition timedelta_of (days hours minutes seconds : Z) : timedelta :=
  (((days * 24 + hours) * 60 + minutes) * 60 + seconds) * microseconds_per_second.

(** [date_transform_to(date, delta)] *)
Definition date_transform_to (date : timedelta) (delta : string) : outcome float :=
  if String.eqb delta "second" then Return (total_seconds date)
  else if String.eqb delta "minute" then
    Return (Float64.div (total_seconds date) (Float64.of_int 60))
  else if String.eqb delta "hour" then
    Return (Float64.div (total_seconds date) (Float64.of_int 3600))
  else Raise InvalidDelta.

(** The three units of the configuration. *)
Inductive TimeUnit : Type := second | minute | hour.

Definition unit_name (u : TimeUnit) : string :=
  match u with
  | second => "second"
  | minute => "minute"
  | hour => "hour"
  end.

(** ** Dictionaries *)

Section Dict.
Context {V : Type}.

Definition dict : Type := list (string * V).

Fixpoint dict_get (d : dict) (k : string) : option V :=
  match d with
  | [] => None
  | (k', v) :: d' => if String.eqb k' k then Some v else dict_get d' k
  end.

(** [d[k] = v]: replaces the value in place, or appends a new key. *)
Fixpoint dict_set (d : dict) (k : string) (v : V) : dict :=
  match d with
  | [] => [(k, v)]
  | (k', v') :: d' =>
      if String.eqb k' k then (k', v) :: d' else (k', v') :: dict_set d' k v
  end.

(** [d[k]] on a [defaultdict]: the default when the key is missing. *)
Definition dict_get_default (d : dict) (k : string) (default : V) : V :=
  match dict_get d k with
  | Some v => v
  | None => default
  end.

Definition dict_keys (d : dict) : list string := map fst d.
End Dict.
Arguments dict V : clear implicits.

(** ** Configuration *)

(** An entry of [config['repositories']]. *)
Record Repository : Type := mkRepository {
  owner : string;
  repo : string
}.

(** The parts of the configuration file the engine reads. *)
Record Config : Type := mkConfig {
  repositories : list Repository;
  delta : string
}.

(** ** The [github_events] table *)

(** A row, in column order: id, owner, repo, event_timestamp, type. *)
Record Row : Type := mkRow {
  row_id : Z;
  row_owner : string;
  row_repo : string;
  event_timestamp : datetime;
  row_type : string
}.

(** The table in insertion order, with the next value of its SERIAL. *)
Record Table : Type := mkTable {
  rows : list Row;
  next_id : Z
}.

Definition empty_table : Table := mkTable [] 1.

(** [INSERT INTO github_events (owner, repo, event_timestamp, type)
     VALUES (...)] *)
Definition insert_row (t : Table) (o r : string) (ts : datetime) (ty : string)
  : Table :=
  mkTable (rows t ++ [mkRow (next_id t) o r ts ty]) (next_id t + 1).

(** Rows in ascending timestamp order.  SQL leaves the order of rows with
    equal timestamps open; the model keeps them in insertion order. *)
Fixpoint insert_sorted (r : Row) (sorted : list Row) : list Row :=
  match sorted with
  | [] => [r]
  | r' :: sorted' =>
      if event_timestamp r <=? event_timestamp r' then r :: sorted
      else r' :: insert_sorted r sorted'
  end.

Definition order_by_timestamp (rs : list Row) : list Row :=
  fold_right insert_sorted [] rs.

(** [SELECT * FROM github_events WHERE owner = o AND repo = r
     ORDER BY event_timestamp ASC] *)
Definition select_events (t : Table) (o r : string) : list Row :=
  order_by_timestamp
    (filter (fun row => String.eqb (row_owner row) o
                        && String.eqb (row_repo row) r) (rows t)).

(** ** The remote feed and the clock *)

(** An event object of the feed: [created_at] holds the datetime that
    [strptime(event['created_at'], '%Y-%m-%dT%H:%M:%SZ')] returns, [None]
    when the format does not match; [event_type] holds [event['type']],
    [None] when the key is missing. *)
Record Event : Type := mkEvent {
  created_at : option datetime;
  event_type : option string
}.

(** What a GET on the events URL of a repository gives. *)
Inductive Response : Type :=
| ConnectionFailed                 (* requests.get raises *)
| HttpError                        (* raise_for_status raises *)
| InvalidJson                      (* response.json() raises ValueError *)
| JsonBody (events : list Event).

Record World : Type := mkWorld {
  github : string -> string -> Response;
  clock : nat -> datetime          (* the n-th reading of datetime.now() *)
}.

(** [get_github_events(owner, repo)] *)
Definition get_github_events (w : World) (o r : string) : outcome (list Event) :=
  match github w o r with
  | ConnectionFailed => Raise RequestException
  | HttpError => Raise RequestException
  | InvalidJson => Raise ValueError
  | JsonBody events => Return events
  end.

(** ** The update cycle *)

(** What the cycle reads and writes: the database ([None] when the table
    does not exist), the number of clock readings made so far, and the
    local variable [current_count]. *)
Record Frame : Type := mkFrame {
  database : option Table;
  clock_reads : nat;
  current_count : Z
}.

Definition M (A : Type) : Type := Frame -> Frame * outcome A.

Definition ret {A} (a : A) : M A := fun f => (f, Return a).

Definition raise {A} (e : exn) : M A := fun f => (f, Raise e).

Definition bind {A B} (m : M A) (k : A -> M B) : M B :=
  fun f =>
    match m f with
    | (f', Return a) => k a f'
    | (f', Raise e) => (f', Raise e)
    end.

Definition lift {A} (o : outcome A) : M A := fun f => (f, o).

Declare Scope cycle_scope.
Delimit Scope cycle_scope with cycle.
Notation "x <- c ;; k" := (bind c (fun x => k))
  (at level 61, c at next level, right associativity) : cycle_scope.
Notation "c ;; k" := (bind c (fun _ => k))
  (at level 61, right associativity) : cycle_scope.
Local Open Scope cycle_scope.

Definition get_count : M Z := fun f => (f, Return (current_count f)).

Definition set_count (n : Z) : M unit :=
  fun f => (mkFrame (database f) (clock_reads f) n, Return tt).

(** [datetime.now()] *)
Definition datetime_now (w : World) : M datetime :=
  fun f => (mkFrame (database f) (S (clock_reads f)) (current_count f),
            Return (clock w (clock_reads f))).

(** A statement on the table; it fails when the table does not exist. *)
Definition execute (stmt : Table -> Table) : M unit :=
  fun f =>
    match database f with
    | None => (f, Raise UndefinedTable)
    | Some t => (mkFrame (Some (stmt t)) (clock_reads f) (current_count f),
                 Return tt)
    end.

(** The DELETE statement of [update_data],
    [DELETE FROM github_events WHERE event_timestamp = (SELECT ... LIMIT 1)
     LIMIT 1;].  The DELETE of PostgreSQL has no LIMIT clause: the statement
    is rejected when it is parsed, psycopg2 raises its syntax error and no
    row is deleted. *)
Definition execute_delete_oldest : M unit := raise SyntaxError.

(** [DROP TABLE github_events;] *)
Definition drop_table : M unit :=
  fun f =>
    match database f with
    | None => (f, Raise UndefinedTable)
    | Some _ => (mkFrame None (clock_reads f) (current_count f), Return tt)
    end.

(** [create_events_table()]: CREATE TABLE IF NOT EXISTS. *)
Definition create_events_table : M unit :=
  fun f =>
    match database f with
    | None => (mkFrame (Some empty_table) (clock_reads f) (current_count f),
               Return tt)
    | Some _ => (f, Return tt)
    end.

Fixpoint for_each {A} (xs : list A) (body : A -> M unit) : M unit :=
  match xs with
  | [] => ret tt
  | x :: xs' => body x ;; for_each xs' body
  end.

Definition strptime (e : Event) : M datetime :=
  match created_at e with
  | Some t => ret t
  | None => raise ValueError
  end.

Definition type_of (e : Event) : M string :=
  match event_type e with
  | Some ty => ret ty
  | None => raise KeyError
  end.

(** The body of the inner loop of [update_data], for a store of [capacity]
    rows. *)
Definition process_event (capacity : Z) (w : World) (repository : Repository)
    (event : Event) : M unit :=
  event_datetime <- strptime event ;;
  now <- datetime_now w ;;
  let time_difference : timedelta := now - event_datetime in
  if timedelta_days time_difference >? 7 then ret tt
  else
    count <- get_count ;;
    (if count >=? capacity then
       execute_delete_oldest ;;
       set_count (count - 1)
     else ret tt) ;;
    count <- get_count ;;
    set_count (count + 1) ;;
    ty <- type_of event ;;
    execute (fun t => insert_row t (owner repository) (repo repository)
                        event_datetime ty).

(** The body of the outer loop. *)
Definition process_repository (capacity : Z) (w : World)
    (repository : Repository) : M unit :=
  events <- lift (get_github_events w (owner repository) (repo repository)) ;;
  match events with
  | [] => ret tt
  | _ => for_each events (process_event capacity w repository)
  end.

Definition update_data_with (capacity : Z) (w : World) (cfg : Config)
  : M string :=
  drop_table ;;
  create_events_table ;;
  set_count 0 ;;
  for_each (repositories cfg) (process_repository capacity w) ;;
  ret "Data were updated.".

(** [update_data()]: the store holds 500 rows. *)
Definition update_data : World -> Config -> M string := update_data_with 500.

(** ** Statistics *)

(** [[(event[4], event[3]) for event in events]] *)
Definition type_and_date (events : list Row) : list (string * datetime) :=
  map (fun event => (row_type event, event_timestamp event)) events.

(** [type_times[timestamp[0]].append(timestamp[1])] on a
    [defaultdict(list)]. *)
Definition append_time (type_times : dict (list datetime))
    (timestamp : string * datetime) : dict (list datetime) :=
  dict_set type_times (fst timestamp)
    (dict_get_default type_times (fst timestamp) [] ++ [snd timestamp]).

(** The loop filling [type_times]. *)
Definition group_times (timestamps : list (string * datetime))
  : dict (list datetime) :=
  fold_left append_time timestamps [].

(** [[times[i] - times[i - 1] for i in range(1, len(times))]] *)
Definition deltas_of (times : list datetime) : list timedelta :=
  map (fun i : nat => nth i times 0 - nth (i - 1)%nat times 0)
      (seq 1 (List.length times - 1)).

(** The body of the loop over [type_times.items()]: the value stored under
    the type. *)
Definition average_of (delta : string) (times : list datetime) : outcome pyval :=
  if (List.length times <? 2)%nat then Return (PyInt 0)
  else
    (let? transformed :=
       map_outcome (fun x => date_transform_to x delta) (deltas_of times) in
     let sum_of_deltas := py_sum transformed in
     let? average_time :=
       py_truediv sum_of_deltas (Z.of_nat (List.length times) - 1) in
     Return (PyFloat (Float64.round3 average_time)))%outcome.

Fixpoint averages (delta : string) (items : list (string * list datetime))
    (result : dict pyval) : outcome (dict pyval) :=
  match items with
  | [] => Return result
  | (typ, times) :: items' =>
      (let? v := average_of delta times in
       averages delta items' (dict_set result typ v))%outcome
  end.

(** [calculate_average_time(events)] with [config.get('delta') = delta]. *)
Definition calculate_average_time (delta : string) (events : list Row)
  : outcome (option (dict pyval)) :=
  match events with
  | [] => Return None
  | _ =>
      let timestamps := type_and_date events in
      let type_times := group_times timestamps in
      (let? result := averages delta type_times [] in
       Return (Some result))%outcome
  end.

(** [get_db_statistics(owner, repo)] *)
Definition get_db_statistics (cfg : Config) (db : option Table) (o r : string)
  : outcome (option (dict pyval)) :=
  match db with
  | None => Raise UndefinedTable
  | Some t => calculate_average_time (delta cfg) (select_events t o r)
  end.

(** [result[repo][typ] = average_time] for each item of [statistics], on
    [result = defaultdict(dict)]. *)
Definition store_statistics (result : dict (dict pyval)) (r : string)
    (statistics : dict pyval) : dict (dict pyval) :=
  fold_left
    (fun result item =>
       dict_set result r
         (dict_set (dict_get_default result r []) (fst item) (snd item)))
    statistics result.

(** The loop of [get_api_statistics] over the repositories. *)
Fixpoint statistics_loop (cfg : Config) (db : option Table)
    (repos : list Repository) (result : dict (dict pyval))
  : outcome (dict (dict pyval)) :=
  match repos with
  | [] => Return result
  | repository :: repos' =>
      (let? statistics :=
         get_db_statistics cfg db (owner repository) (repo repository) in
       match statistics with
       | None | Some [] =>
           statistics_loop cfg db repos' (dict_set result (repo repository) [])
       | Some stats =>
           statistics_loop cfg db repos'
             (store_statistics result (repo repository) stats)
       end)%outcome
  end.

(** [get_api_statistics()]: the mapping handed to [jsonify]. *)
Definition get_api_statistics (cfg : Config) (db : option Table)
  : outcome (dict (dict pyval)) :=
  statistics_loop cfg db (repositories cfg) [].

(** ** Frames visited by a cycle *)

(** The frames after each execution of a loop body, up to the first
    exception. *)
Fixpoint for_each_trace {A} (xs : list A) (body : A -> M unit) (f : Frame)
  : list Frame :=
  match xs with
  | [] => []
  | x :: xs' =>
      match body x f with
      | (f', Return _) => f' :: for_each_trace xs' body f'
      | (f', Raise _) => [f']
      end
  end.

(** The frames after each execution of [process_event] in the loop over the
    repositories. *)
Fixpoint repositories_trace (capacity : Z) (w : World) (repos : list Repository)
    (f : Frame) : list Frame :=
  match repos with
  | [] => []
  | repository :: repos' =>
      match get_github_events w (owner repository) (repo repository) with
      | Raise _ => []
      | Return events =>
          for_each_trace events (process_event capacity w repository) f ++
          match for_each events (process_event capacity w repository) f with
          | (f', Return _) => repositories_trace capacity w repos' f'
          | (_, Raise _) => []
          end
      end
  end.

(** The frame in which the loops of [update_data] start. *)
Definition reset_frame (f : Frame) : Frame :=
  mkFrame (Some empty_table) (clock_reads f) 0.

(** The frames after each execution of [process_event] in a cycle started
    in [f]. *)
Definition update_data_trace (capacity : Z) (w : World) (cfg : Config)
    (f : Frame) : list Frame :=
  match database f with
  | None => []
  | Some _ => repositories_trace capacity w (repositories cfg) (reset_frame f)
  end.

(** The number of rows in the store. *)
Definition store_size (f : Frame) : Z :=
  match database f with
  | None => 0
  | Some t => Z.of_nat (List.length (rows t))
  end.

(** ** Specification-side definitions *)

(** The timestamps of the events of one type, in the order of the input. *)
Definition times_of_type (typ : string) (events : list Row) : list datetime :=
  map event_timestamp
      (filter (fun event => String.eqb (row_type event) typ) events).

(** [d_i = timestamp[i] - timestamp[i-1]] for [i = 1..n-1]. *)
Fixpoint spec_deltas (times : list datetime) : list timedelta :=
  match times with
  | [] => []
  | t0 :: rest =>
      match rest with
      | [] => []
      | t1 :: _ => (t1 - t0) :: spec_deltas rest
      end
  end.

(** A delta in the unit: seconds, seconds/60, seconds/3600. *)
Definition spec_convert (u : TimeUnit) (d : timedelta) : float :=
  match u with
  | second => total_seconds d
  | minute => Float64.div (total_seconds d) (Float64.of_int 60)
  | hour => Float64.div (total_seconds d) (Float64.of_int 3600)
  end.

(** The mean of a list of floats: their sum from left to right, divided by
    their number. *)
Definition spec_mean (xs : list float) : float :=
  Float64.div (fold_left Float64.add xs Float64.zero)
              (Float64.of_int (Z.of_nat (List.length xs))).

(** The average of the spec: deltas, converted, averaged, and only then
    rounded to three decimals. *)
Definition spec_average (u : TimeUnit) (times : list datetime) : float :=
  Float64.round3 (spec_mean (map (spec_convert u) (spec_deltas times))).

(** The content of a row without its id: owner, repo, timestamp, type. *)
Definition EventRecord : Type := (string * string * datetime * string)%type.

Definition row_record (r : Row) : EventRecord :=
  (row_owner r, row_repo r, event_timestamp r, row_type r).

(** The freshness window of the spec: seven days. *)
Definition freshness_window : timedelta := 7 * microseconds_per_day.

(** The events of one response whose age, now - timestamp, is at most the
    window when they are ingested; the [k]-th reading of the clock is taken
    for the first event. *)
Fixpoint spec_fresh_events (w : World) (k : nat) (repository : Repository)
    (events : list Event) : list EventRecord :=
  match events with
  | [] => []
  | e :: events' =>
      match created_at e, event_type e with
      | Some ts, Some ty =>
          if clock w k - ts <=? freshness_window
          then (owner repository, repo repository, ts, ty)
                 :: spec_fresh_events w (S k) repository events'
          else spec_fresh_events w (S k) repository events'
      | Some _, None => spec_fresh_events w (S k) repository events'
      | None, _ => spec_fresh_events w k repository events'
      end
  end.

(** The qualifying events of a cycle, in the order they are fetched. *)
Fixpoint spec_qualifying_events (w : World) (k : nat) (repos : list Repository)
  : list EventRecord :=
  match repos with
  | [] => []
  | repository :: repos' =>
      match github w (owner repository) (repo repository) with
      | JsonBody events =>
          spec_fresh_events w k repository events
            ++ spec_qualifying_events w (k + List.length events) repos'
      | _ => spec_qualifying_events w k repos'
      end
  end.

(** ** Auxiliary definitions *)

(** Ascending order of timestamps. *)
Definition older_or_equal (r r' : Row) : Prop :=
  event_timestamp r <= event_timestamp r'.

(** The frame after one reading of the clock. *)
Definition tick (f : Frame) : Frame :=
  mkFrame (database f) (S (clock_reads f)) (current_count f).

(** The events of one response that the loop of [update_data] inserts when
    nothing raises: those that pass its test on [time_difference.days].  The
    list ends at an event that makes the loop raise. *)
Fixpoint passing_events (w : World) (k : nat) (repository : Repository)
    (events : list Event) : list EventRecord :=
  match events with
  | [] => []
  | e :: events' =>
      match created_at e with
      | None => []
      | Some ts =>
          if timedelta_days (clock w k - ts) >? 7
          then passing_events w (S k) repository events'
          else
            match event_type e with
            | None => []
            | Some ty =>
                (owner repository, repo repository, ts, ty)
                  :: passing_events w (S k) repository events'
            end
      end
  end.

(** The same over the repositories, in the order they are fetched. *)
Fixpoint accepted_events (w : World) (k : nat) (repos : list Repository)
  : list EventRecord :=
  match repos with
  | [] => []
  | repository :: repos' =>
      match github w (owner repository) (repo repository) with
      | JsonBody events =>
          passing_events w k repository events
            ++ accepted_events w (k + List.length events) repos'
      | _ => []
      end
  end.

(** The INSERT of [update_data] for one record. *)
Definition store_record (t : Table) (q : EventRecord) : Table :=
  let '(o, r, ts, ty) := q in insert_row t o r ts ty.

(** The loop invariant of [update_data]: the table exists and
    [current_count] is its number of rows. *)
Definition counted (f : Frame) : Prop :=
  exists t, database f = Some t
            /\ current_count f = Z.of_nat (List.length (rows t)).

(** The invariant together with the capacity bound. *)
Definition cycle_inv (capacity : Z) (f : Frame) : Prop :=
  counted f /\ store_size f <= capacity.

(** The dates paired with one type, in order. *)
Definition times_in (typ : string) (timestamps : list (string * datetime))
  : list datetime :=
  map snd (filter (fun p => String.eqb (fst p) typ) timestamps).

(** The value stored for a type whose timestamps are [times]. *)
Definition stored_average (u : TimeUnit) (times : list datetime) : pyval :=
  if (List.length times <? 2)%nat then PyInt 0
  else PyFloat (spec_average u times).

(** One iteration of the loop of [get_api_statistics]. *)
Definition render (result : dict (dict pyval)) (r : string)
    (statistics : option (dict pyval)) : dict (dict pyval) :=
  match statistics with
  | None | Some [] => dict_set result r []
  | Some stats => store_statistics result r stats
  end.

(** The statistics of a repository under a valid unit. *)
Definition statistics_of (u : TimeUnit) (t : Table) (repository : Repository)
  : option (dict pyval) :=
  match calculate_average_time (unit_name u)
          (select_events t (owner repository) (repo repository)) with
  | Return statistics => statistics
  | Raise _ => None
  end.

(** The loop of [get_api_statistics] under a valid unit. *)
Definition render_all (u : TimeUnit) (t : Table) (repos : list Repository)
    (result : dict (dict pyval)) : dict (dict pyval) :=
  fold_left
    (fun res repository =>
       render res (repo repository) (statistics_of u t repository))
    repos result.

(** [n] timestamps starting at [t0], [d] apart. *)
Definition progression (t0 : datetime) (d : timedelta) (n : nat)
  : list datetime :=
  map (fun i => t0 + Z.of_nat i * d) (seq 0 n).

(** ** Sample data *)

(** The instant [n] seconds after the origin. *)
Definition seconds (n : Z) : datetime := n * microseconds_per_second.

(** A well-formed push event of the feed. *)
Definition pushed_at (ts : datetime) : Event :=
  mkEvent (Some ts) (Some "PushEvent").

Definition one_repository : Config :=
  mkConfig [mkRepository "octocat" "hello"] "minute".

(** The process after start-up: the table exists and is empty. *)
Definition empty_frame : Frame := mkFrame (Some empty_table) 0 0.

(** The instant 2024-01-20T12:00:00 as a count of days and hours. *)
Definition noon : datetime := timedelta_of 738904 12 0 0.

(** Two tracked repositories with the same name. *)
Definition two_owners : Config :=
  mkConfig [mkRepository "alice" "proj"; mkRepository "bob" "proj"] "minute".

Definition rows_of_bob : Table :=
  mkTable [mkRow 1 "bob" "proj" (seconds 0) "PushEvent";
           mkRow 2 "bob" "proj" (seconds 60) "PushEvent"] 3.

(** A feed of 501 events, one per second, all fresh. *)
Definition long_feed : World :=
  mkWorld (fun _ _ => JsonBody (map (fun i => pushed_at (seconds (Z.of_nat i)))
                                    (seq 1 501)))
          (fun _ => seconds 1000).

(** A stored push event. *)
Definition pushed (id : Z) (ts : datetime) : Row :=
  mkRow id "octocat" "hello" ts "PushEvent".

Definition mixed_events : list Row :=
  [mkRow 1 "octocat" "hello" (seconds 0) "PushEvent";
   mkRow 2 "octocat" "hello" (seconds 3600) "ForkEvent";
   mkRow 3 "octocat" "hello" (seconds 7200) "PushEvent";
   mkRow 4 "octocat" "hello" (seconds 14400) "PushEvent"].

(** The rows of a repository, in insertion order: the WHERE clause of the
    query. *)
Definition rows_of (t : Table) (o r : string) : list Row :=
  filter (fun row => String.eqb (row_owner row) o
                     && String.eqb (row_repo row) r) (rows t).

(** The sum of a list of timedeltas. *)
Definition total (ds : list timedelta) : timedelta := fold_right Z.add 0 ds.

(** A [delta] that [date_transform_to] does not know. *)
Definition unknown_delta (delta : string) : Prop :=
  delta <> "second" /\ delta <> "minute" /\ delta <> "hour".

(** A row that a cycle over [cfg] can have written between the clock
    readings [lo] and [hi]: the content of an event in the feed of a tracked
    repository, under the names of that repository, less than eight days old
    at the reading taken for it. *)
Definition ingested (w : World) (cfg : Config) (lo hi : nat) (row : Row)
  : Prop :=
  exists repository events e k,
    In repository (repositories cfg)
    /\ github w (owner repository) (repo repository) = JsonBody events
    /\ In e events
    /\ created_at e = Some (event_timestamp row)
    /\ event_type e = Some (row_type row)
    /\ row_owner row = owner repository
    /\ row_repo row = repo repository
    /\ (lo <= k < hi)%nat
    /\ clock w k - event_timestamp row < 8 * microseconds_per_day.

(** The records of a table, in insertion order. *)
Definition records (t : Table) : list EventRecord := map row_record (rows t).

(** * Properties *)

(** ** Dictionaries *)

Section DictFacts.
Context {V : Type}.
Implicit Types (d : dict V) (k : string) (v : V).

Lemma dict_get_set_same d k v : dict_get (dict_set d k v) k = Some v.
Proof.
  induction d as [|[k' v'] d IH]; cbn.
  - now rewrite String.eqb_refl.
  - destruct (String.eqb k' k) eqn:E; cbn; rewrite E; auto.
Qed.

Lemma dict_get_set_other d k k' v :
  k <> k' -> dict_get (dict_set d k v) k' = dict_get d k'.
Proof.
  intros Hne.
  induction d as [|[k0 v0] d IH]; cbn.
  - destruct (String.eqb_spec k k'); congruence.
  - destruct (String.eqb_spec k0 k) as [->|Hk]; cbn.
    + destruct (String.eqb_spec k k'); congruence.
    + destruct (String.eqb_spec k0 k'); auto.
Qed.

Lemma dict_get_In_keys d k v : dict_get d k = Some v -> In k (dict_keys d).
Proof.
  induction d as [|[k0 v0] d IH]; cbn; [discriminate|].
  destruct (String.eqb_spec k0 k); auto.
Qed.

Lemma dict_get_not_In_keys d k : ~ In k (dict_keys d) -> dict_get d k = None.
Proof.
  induction d as [|[k0 v0] d IH]; cbn; [reflexivity|].
  intros Hn. destruct (String.eqb_spec k0 k); [tauto|]. apply IH. tauto.
Qed.

Lemma dict_keys_set_In d k v k' :
  In k' (dict_keys (dict_set d k v)) <-> k' = k \/ In k' (dict_keys d).
Proof.
  induction d as [|[k0 v0] d IH]; cbn.
  - intuition.
  - destruct (String.eqb_spec k0 k) as [->|Hk]; cbn.
    + intuition.
    + rewrite IH. intuition.
Qed.

Lemma dict_keys_set_NoDup d k v :
  NoDup (dict_keys d) -> NoDup (dict_keys (dict_set d k v)).
Proof.
  induction d as [|[k0 v0] d IH]; cbn; intros Hnd.
  - constructor; [intros []|constructor].
  - inversion Hnd as [|? ? Hnotin Hnd']; subst.
    destruct (String.eqb_spec k0 k) as [->|Hk]; cbn.
    + constructor; assumption.
    + constructor; [|now apply IH].
      intros Hin. apply (proj1 (dict_keys_set_In d k v k0)) in Hin.
      destruct Hin as [->|Hin]; [congruence|]. apply Hnotin, Hin.
Qed.

Lemma dict_get_default_set_same d k v default :
  dict_get_default (dict_set d k v) k default = v.
Proof. unfold dict_get_default. now rewrite dict_get_set_same. Qed.

End DictFacts.

(** ** The query *)

Lemma insert_sorted_Permutation r sorted :
  Permutation (insert_sorted r sorted) (r :: sorted).
Proof.
  induction sorted as [|r' sorted IH]; cbn; [reflexivity|].
  destruct (event_timestamp r <=? event_timestamp r'); [reflexivity|].
  rewrite IH. apply perm_swap.
Qed.

Lemma insert_sorted_Sorted r sorted :
  Sorted older_or_equal sorted -> Sorted older_or_equal (insert_sorted r sorted).
Proof.
  induction sorted as [|r' sorted IH]; intros Hs; cbn.
  - repeat constructor.
  - destruct (Z.leb_spec (event_timestamp r) (event_timestamp r')).
    + constructor; [exact Hs|]. constructor. exact H.
    + inversion Hs as [|? ? Hs' Hhd]; subst.
      constructor; [now apply IH|].
      destruct sorted as [|r'' sorted]; cbn.
      * constructor. unfold older_or_equal. lia.
      * destruct (Z.leb_spec (event_timestamp r) (event_timestamp r''));
          constructor; unfold older_or_equal; [lia|].
        now inversion Hhd.
Qed.

Lemma order_by_timestamp_Permutation rs :
  Permutation (order_by_timestamp rs) rs.
Proof.
  induction rs as [|r rs IH]; cbn; [reflexivity|].
  rewrite insert_sorted_Permutation. now constructor.
Qed.

Lemma order_by_timestamp_Sorted rs :
  Sorted older_or_equal (order_by_timestamp rs).
Proof.
  induction rs as [|r rs IH]; cbn; [constructor|].
  now apply insert_sorted_Sorted.
Qed.

(** The query returns the rows of the repository, oldest first. *)
Lemma select_events_spec t o r :
  Sorted older_or_equal (select_events t o r)
  /\ forall row, In row (select_events t o r) <->
                 In row (rows t) /\ row_owner row = o /\ row_repo row = r.
Proof.
  split; [apply order_by_timestamp_Sorted|].
  intros row. unfold select_events.
  split.
  - intros Hin.
    apply (Permutation_in _ (order_by_timestamp_Permutation _)) in Hin.
    apply filter_In in Hin. destruct Hin as [Hin Hb].
    apply andb_true_iff in Hb. destruct Hb as [Ho Hr].
    apply String.eqb_eq in Ho, Hr. auto.
  - intros (Hin & Ho & Hr).
    apply (Permutation_in _ (Permutation_sym (order_by_timestamp_Permutation _))).
    apply filter_In. split; [exact Hin|].
    rewrite Ho, Hr, !String.eqb_refl. reflexivity.
Qed.

(** ** One event of the update cycle *)

(** [process_event] case by case. *)
Lemma process_event_eq capacity w repository e f :
  process_event capacity w repository e f =
  match created_at e with
  | None => (f, Raise ValueError)
  | Some ts =>
      if timedelta_days (clock w (clock_reads f) - ts) >? 7
      then (tick f, Return tt)
      else if current_count f >=? capacity then (tick f, Raise SyntaxError)
      else
        match event_type e, database f with
        | None, _ =>
            (mkFrame (database f) (S (clock_reads f)) (current_count f + 1),
             Raise KeyError)
        | Some ty, None =>
            (mkFrame None (S (clock_reads f)) (current_count f + 1),
             Raise UndefinedTable)
        | Some ty, Some t =>
            (mkFrame (Some (insert_row t (owner repository) (repo repository)
                                       ts ty))
                     (S (clock_reads f)) (current_count f + 1), Return tt)
        end
  end.
Proof.
  unfold process_event, bind, strptime, type_of, datetime_now, get_count,
    set_count, execute, execute_delete_oldest, ret, raise, tick.
  destruct (created_at e) as [ts|]; cbn; [|reflexivity].
  destruct (timedelta_days (clock w (clock_reads f) - ts) >? 7); cbn;
    [reflexivity|].
  destruct (current_count f >=? capacity); cbn; [reflexivity|].
  destruct (event_type e); cbn; [|reflexivity].
  destruct (database f); reflexivity.
Qed.

(** An event that the freshness test rejects changes neither the store nor
    the counter. *)
Lemma process_event_rejected capacity w repository e f ts :
  created_at e = Some ts ->
  timedelta_days (clock w (clock_reads f) - ts) > 7 ->
  process_event capacity w repository e f = (tick f, Return tt).
Proof.
  intros Hts Hold. rewrite process_event_eq, Hts.
  destruct (Z.gtb_spec (timedelta_days (clock w (clock_reads f) - ts)) 7);
    [reflexivity|lia].
Qed.

(** The freshness test looks at whole days: an event passes as long as it is
    less than eight days old. *)
Lemma timedelta_days_le_7 (td : timedelta) :
  timedelta_days td <= 7 <-> td < 8 * microseconds_per_day.
Proof.
  unfold timedelta_days.
  assert (H : 0 < microseconds_per_day) by reflexivity.
  split; intros Hd.
  - destruct (Z.lt_ge_cases td (8 * microseconds_per_day)) as [|Hge];
      [assumption|].
    assert (8 <= td / microseconds_per_day); [|lia].
    apply Z.div_le_lower_bound; [exact H|lia].
  - assert (td / microseconds_per_day < 8); [|lia].
    apply Z.div_lt_upper_bound; [exact H|lia].
Qed.

(** ** The loop invariant: [current_count] is the number of rows *)

Lemma store_size_Some f t :
  database f = Some t -> store_size f = Z.of_nat (List.length (rows t)).
Proof. unfold store_size. now intros ->. Qed.

Lemma insert_row_length t o r ts ty :
  List.length (rows (insert_row t o r ts ty)) = S (List.length (rows t)).
Proof. cbn. rewrite length_app. cbn. lia. Qed.

Lemma process_event_inv capacity w repository e f f' o :
  0 < capacity ->
  cycle_inv capacity f ->
  process_event capacity w repository e f = (f', o) ->
  store_size f' <= capacity /\ (o = Return tt -> cycle_inv capacity f').
Proof.
  intros Hcap [(t & Hdb & Hcount) Hsize] Hrun.
  rewrite (store_size_Some _ _ Hdb) in Hsize.
  rewrite process_event_eq, Hdb in Hrun.
  assert (Hinv : cycle_inv capacity f).
  { split; [exists t; auto|]. now rewrite (store_size_Some _ _ Hdb). }
  assert (Htick : cycle_inv capacity (tick f)).
  { split; [exists t; auto|]. unfold store_size, tick; cbn. now rewrite Hdb. }
  destruct (created_at e) as [ts|].
  2:{ inversion Hrun; subst. split; [apply Hinv|discriminate]. }
  destruct (timedelta_days (clock w (clock_reads f) - ts) >? 7).
  { inversion Hrun; subst. split; [apply Htick|auto]. }
  destruct (Z.geb_spec (current_count f) capacity) as [Hfull|Hroom].
  { inversion Hrun; subst. split; [apply Htick|discriminate]. }
  destruct (event_type e) as [ty|]; inversion Hrun; subst; clear Hrun.
  - unfold cycle_inv, counted, store_size; cbn [database current_count].
    rewrite insert_row_length. split; [lia|]. intros _. split; [|lia].
    eexists. split; [reflexivity|]. rewrite insert_row_length. lia.
  - unfold store_size; cbn [database]. split; [lia|discriminate].
Qed.

Lemma for_each_cons {A} (x : A) xs (body : A -> M unit) f :
  for_each (x :: xs) body f =
  match body x f with
  | (f', Return _) => for_each xs body f'
  | (f', Raise e) => (f', Raise e)
  end.
Proof. reflexivity. Qed.

Lemma events_loop_inv capacity w repository events : forall f,
  0 < capacity ->
  cycle_inv capacity f ->
  Forall (fun f' => store_size f' <= capacity)
         (for_each_trace events (process_event capacity w repository) f)
  /\ (forall f' u,
        for_each events (process_event capacity w repository) f
          = (f', Return u) ->
        cycle_inv capacity f').
Proof.
  induction events as [|e events IH]; intros f Hcap Hinv.
  - split; [constructor|]. intros f' u H. inversion H; subst. exact Hinv.
  - rewrite for_each_cons. cbn [for_each_trace].
    destruct (process_event capacity w repository e f) as [f1 o] eqn:Hstep.
    destruct (process_event_inv _ _ _ _ _ _ _ Hcap Hinv Hstep) as [Hsz Hnext].
    destruct o as [[]|ex].
    + destruct (IH f1 Hcap (Hnext eq_refl)) as [Htr Hend].
      split; [constructor; assumption|exact Hend].
    + split; [constructor; [assumption|constructor]|discriminate].
Qed.

Lemma process_repository_eq capacity w repository f :
  process_repository capacity w repository f =
  match get_github_events w (owner repository) (repo repository) with
  | Raise e => (f, Raise e)
  | Return events => for_each events (process_event capacity w repository) f
  end.
Proof.
  unfold process_repository, bind, lift.
  destruct (get_github_events w (owner repository) (repo repository))
    as [[|e events]|ex]; reflexivity.
Qed.

Lemma repositories_loop_inv capacity w repos : forall f,
  0 < capacity ->
  cycle_inv capacity f ->
  Forall (fun f' => store_size f' <= capacity)
         (repositories_trace capacity w repos f)
  /\ (forall f' o,
        for_each repos (process_repository capacity w) f = (f', o) ->
        store_size f' <= capacity).
Proof.
  induction repos as [|r repos IH]; intros f Hcap Hinv.
  - split; [constructor|]. intros f' o H. inversion H; subst. apply Hinv.
  - rewrite for_each_cons, process_repository_eq. cbn [repositories_trace].
    destruct (get_github_events w (owner r) (repo r)) as [events|ex].
    + destruct (events_loop_inv capacity w r events f Hcap Hinv) as [Htr Hend].
      destruct (for_each events (process_event capacity w r) f)
        as [f1 [[]|ex]] eqn:Hloop.
      * destruct (IH f1 Hcap (Hend _ _ eq_refl)) as [Htr' Hend'].
        split; [apply Forall_app; split; assumption|exact Hend'].
      * split; [rewrite app_nil_r; exact Htr|].
        intros f' o H. inversion H; subst.
        (* the frame of the exception is the last frame of the trace *)
        clear - Htr Hloop. revert f Htr Hloop.
        induction events as [|e events IHe]; intros f Htr Hloop;
          [discriminate|].
        rewrite for_each_cons in Hloop. cbn [for_each_trace] in Htr.
        destruct (process_event capacity w r e f) as [f2 [[]|ex2]].
        -- inversion Htr; subst. eapply IHe; eassumption.
        -- inversion Hloop; subst. now inversion Htr.
    + split; [constructor|]. intros f' o H. inversion H; subst. apply Hinv.
Qed.

Lemma reset_frame_inv capacity f : 0 <= capacity -> cycle_inv capacity (reset_frame f).
Proof.
  intros Hcap. split; [exists empty_table; auto|]. cbn. exact Hcap.
Qed.

Lemma update_data_with_eq capacity w cfg f :
  update_data_with capacity w cfg f =
  match database f with
  | None => (f, Raise UndefinedTable)
  | Some _ =>
      match for_each (repositories cfg) (process_repository capacity w)
                     (reset_frame f) with
      | (f', Return _) => (f', Return "Data were updated.")
      | (f', Raise e) => (f', Raise e)
      end
  end.
Proof.
  unfold update_data_with, bind, drop_table, create_events_table, set_count,
    ret, reset_frame.
  destruct (database f); cbn; reflexivity.
Qed.

(** ** The trace is the trace of the cycle *)

Lemma last_cons_default {A} (x : A) (xs : list A) (d : A) :
  last (x :: xs) d = last xs x.
Proof.
  revert x d. induction xs as [|y ys IH]; intros x d; [reflexivity|].
  change (last (x :: y :: ys) d) with (last (y :: ys) d).
  rewrite (IH y d), (IH y x). reflexivity.
Qed.

Lemma last_app_default {A} (xs ys : list A) (d : A) :
  last (xs ++ ys) d = last ys (last xs d).
Proof.
  revert d. induction xs as [|x xs IH]; intros d; [reflexivity|].
  rewrite <- app_comm_cons, !last_cons_default. apply IH.
Qed.

Lemma for_each_trace_last {A} (xs : list A) (body : A -> M unit) : forall f,
  fst (for_each xs body f) = last (for_each_trace xs body f) f.
Proof.
  induction xs as [|x xs IH]; intros f; [reflexivity|].
  rewrite for_each_cons. cbn [for_each_trace].
  destruct (body x f) as [f1 [[]|ex]].
  - rewrite last_cons_default. apply IH.
  - reflexivity.
Qed.

Lemma repositories_trace_last capacity w repos : forall f,
  fst (for_each repos (process_repository capacity w) f)
  = last (repositories_trace capacity w repos f) f.
Proof.
  induction repos as [|r repos IH]; intros f; [reflexivity|].
  rewrite for_each_cons, process_repository_eq. cbn [repositories_trace].
  destruct (get_github_events w (owner r) (repo r)) as [events|ex];
    [|reflexivity].
  rewrite last_app_default, <- for_each_trace_last.
  destruct (for_each events (process_event capacity w r) f) as [f1 [[]|ex]];
    cbn [fst]; [apply IH|reflexivity].
Qed.

(** The cycle ends in the last frame of its trace, or in the reset frame
    when no event was processed. *)
Lemma update_data_trace_last capacity w cfg f t :
  database f = Some t ->
  fst (update_data_with capacity w cfg f)
  = last (update_data_trace capacity w cfg f) (reset_frame f).
Proof.
  intros Hdb. rewrite update_data_with_eq. unfold update_data_trace.
  rewrite Hdb, <- repositories_trace_last.
  destruct (for_each (repositories cfg) (process_repository capacity w)
                     (reset_frame f)) as [f1 [u|ex]]; reflexivity.
Qed.

(** ** C1: the capacity bound *)

(** C1.  In every update cycle, whatever the feed returns, the store holds
    at most 500 rows (of all repositories together) after each event the
    cycle processes, and when the cycle ends. *)
Theorem C1_store_size_at_most_capacity (w : World) (cfg : Config) (f : Frame) :
  Forall (fun f' => store_size f' <= 500) (update_data_trace 500 w cfg f)
  /\ store_size (fst (update_data w cfg f)) <= 500.
Proof.
  unfold update_data, update_data_trace. rewrite update_data_with_eq.
  destruct (database f) as [t|] eqn:Hdb.
  - assert (Hinv : cycle_inv 500 (reset_frame f))
      by (apply reset_frame_inv; lia).
    destruct (repositories_loop_inv 500 w (repositories cfg) (reset_frame f))
      as [Htr Hend]; [lia|exact Hinv|].
    split; [exact Htr|].
    destruct (for_each (repositories cfg) (process_repository 500 w)
                       (reset_frame f)) as [f1 [u|ex]] eqn:Hloop;
      cbn [fst]; eapply Hend; reflexivity.
  - split; [constructor|]. unfold store_size; cbn. rewrite Hdb. lia.
Qed.

(** ** C2: the freshness test *)

(** C2.  An event that is 7 days and 1 hour old when it is ingested is older
    than the window, yet [timedelta.days] is 7, the test [days > 7] fails
    and the event is inserted. *)
Theorem C2_event_older_than_window_is_inserted :
  let created := noon - timedelta_of 7 1 0 0 in
  let w := mkWorld (fun _ _ => JsonBody [pushed_at created]) (fun _ => noon) in
  noon - created > 7 * microseconds_per_day
  /\ update_data w one_repository empty_frame
     = (mkFrame (Some (mkTable [mkRow 1 "octocat" "hello" created "PushEvent"] 2))
                1 1,
        Return "Data were updated.").
Proof. split; reflexivity. Qed.

(** ** C3: the DELETE on a full store *)

(** C3.  The code does not evict.  When an event passes the freshness test
    while the counter has reached the capacity, the engine rejects the
    DELETE statement: [process_event] raises the syntax error, no row leaves
    the store and the event is not inserted.  With a capacity of 3 the
    events at t = 1, 2, 3, 4 leave the rows at t = 1, 2, 3 and the cycle
    fails; with [update_data] a feed of 501 fresh events leaves the first
    500 rows, the oldest among them. *)
Theorem C3_full_store_raises_instead_of_evicting :
  (forall capacity w repository e f ts,
      capacity <= current_count f ->
      created_at e = Some ts ->
      timedelta_days (clock w (clock_reads f) - ts) <= 7 ->
      process_event capacity w repository e f = (tick f, Raise SyntaxError)
      /\ database (tick f) = database f)
  /\ (let w := mkWorld (fun _ _ => JsonBody [pushed_at (seconds 1);
                                              pushed_at (seconds 2);
                                              pushed_at (seconds 3);
                                              pushed_at (seconds 4)])
                       (fun _ => seconds 5) in
      update_data_with 3 w one_repository empty_frame
      = (mkFrame
           (Some (mkTable [mkRow 1 "octocat" "hello" (seconds 1) "PushEvent";
                           mkRow 2 "octocat" "hello" (seconds 2) "PushEvent";
                           mkRow 3 "octocat" "hello" (seconds 3) "PushEvent"]
                          4))
           4 3,
         Raise SyntaxError))
  /\ (let final := update_data long_feed one_repository empty_frame in
      snd final = Raise SyntaxError
      /\ store_size (fst final) = 500
      /\ match database (fst final) with
         | Some t =>
             existsb (fun r => event_timestamp r =? seconds 1) (rows t)
             && negb (existsb (fun r => event_timestamp r =? seconds 501)
                              (rows t))
         | None => false
         end = true).
Proof.
  split; [|split; [reflexivity|vm_compute; repeat split]].
  intros capacity w repository e f ts Hfull Hts Hfresh.
  split; [|reflexivity].
  rewrite process_event_eq, Hts.
  destruct (Z.gtb_spec (timedelta_days (clock w (clock_reads f) - ts)) 7);
    [lia|].
  destruct (Z.geb_spec (current_count f) capacity); [reflexivity|lia].
Qed.

Lemma C3_full_store_raises_instead_of_evicting_witness :
  let w := mkWorld (fun _ _ => JsonBody []) (fun _ => seconds 10) in
  let t := mkTable [pushed 1 (seconds 5); pushed 2 (seconds 3)] 3 in
  let f := mkFrame (Some t) 0 2 in
  process_event 2 w (mkRepository "octocat" "hello") (pushed_at (seconds 9)) f
    = (tick f, Raise SyntaxError)
  /\ database (tick f) = database f.
Proof.
  intros w t f.
  apply (proj1 C3_full_store_raises_instead_of_evicting 2 w
               (mkRepository "octocat" "hello") (pushed_at (seconds 9)) f
               (seconds 9)); [cbn; lia|reflexivity|cbn; lia].
Defined.

(** ** Grouping the timestamps by type *)

Lemma times_in_type_and_date typ events :
  times_in typ (type_and_date events) = times_of_type typ events.
Proof.
  unfold times_in, times_of_type, type_and_date.
  induction events as [|e events IH]; [reflexivity|].
  cbn. destruct (String.eqb (row_type e) typ); cbn; now rewrite IH.
Qed.

Lemma group_fold_get typ timestamps : forall d,
  dict_get (fold_left append_time timestamps d) typ =
  match times_in typ timestamps with
  | [] => dict_get d typ
  | ts => Some (dict_get_default d typ [] ++ ts)
  end.
Proof.
  induction timestamps as [|[k t] l IH]; intros d; [reflexivity|].
  cbn [fold_left]. rewrite IH. clear IH. unfold times_in. cbn [filter fst].
  unfold append_time; cbn [fst snd].
  destruct (String.eqb_spec k typ) as [->|Hne].
  - cbn [map snd]. fold (times_in typ l).
    rewrite dict_get_default_set_same, dict_get_set_same.
    destruct (times_in typ l); [reflexivity|].
    now rewrite <- app_assoc.
  - fold (times_in typ l). unfold dict_get_default.
    rewrite (dict_get_set_other _ _ _ _ Hne).
    reflexivity.
Qed.

Lemma group_fold_NoDup timestamps : forall d,
  NoDup (dict_keys d) -> NoDup (dict_keys (fold_left append_time timestamps d)).
Proof.
  induction timestamps as [|p l IH]; intros d Hd; [exact Hd|].
  cbn [fold_left]. apply IH. now apply dict_keys_set_NoDup.
Qed.

Lemma group_times_get typ events :
  dict_get (group_times (type_and_date events)) typ =
  match times_of_type typ events with
  | [] => None
  | ts => Some ts
  end.
Proof.
  unfold group_times. rewrite group_fold_get, times_in_type_and_date.
  reflexivity.
Qed.

Lemma group_times_NoDup events :
  NoDup (dict_keys (group_times (type_and_date events))).
Proof. apply group_fold_NoDup. constructor. Qed.

(** ** The average of one type *)

Lemma deltas_of_cons t0 t1 rest :
  deltas_of (t0 :: t1 :: rest) = (t1 - t0) :: deltas_of (t1 :: rest).
Proof.
  unfold deltas_of. cbn [List.length Nat.sub].
  rewrite Nat.sub_0_r.
  change (seq 1 (S (List.length rest))) with (1%nat :: seq 2 (List.length rest)).
  cbn [map nth Nat.sub]. f_equal.
  rewrite <- seq_shift, map_map.
  apply map_ext_in. intros i Hi. apply in_seq in Hi.
  destruct i as [|i]; [lia|].
  cbn [nth Nat.sub]. now rewrite Nat.sub_0_r.
Qed.

Lemma deltas_of_spec times : deltas_of times = spec_deltas times.
Proof.
  induction times as [|t0 [|t1 rest] IH]; try reflexivity.
  rewrite deltas_of_cons, IH. reflexivity.
Qed.

Lemma spec_deltas_length times :
  List.length (spec_deltas times) = (List.length times - 1)%nat.
Proof.
  induction times as [|t0 [|t1 rest] IH]; try reflexivity.
  change (spec_deltas (t0 :: t1 :: rest))
    with ((t1 - t0) :: spec_deltas (t1 :: rest)).
  cbn [List.length] in *. rewrite IH. lia.
Qed.

Lemma date_transform_to_unit u d :
  date_transform_to d (unit_name u) = Return (spec_convert u d).
Proof. destruct u; reflexivity. Qed.

Lemma map_outcome_Return {A B} (f : A -> outcome B) (g : A -> B) xs :
  (forall x, f x = Return (g x)) -> map_outcome f xs = Return (map g xs).
Proof.
  intros Hf. induction xs as [|x xs IH]; [reflexivity|].
  cbn. now rewrite Hf, IH.
Qed.

Lemma average_of_unit u times :
  average_of (unit_name u) times = Return (stored_average u times).
Proof.
  unfold average_of, stored_average.
  destruct (Nat.ltb_spec (List.length times) 2) as [|Hn]; [reflexivity|].
  rewrite (map_outcome_Return _ (spec_convert u))
    by (intros; apply date_transform_to_unit).
  cbn [obind]. rewrite deltas_of_spec.
  unfold py_truediv.
  destruct (Z.eqb_spec (Z.of_nat (List.length times) - 1) 0); [lia|].
  unfold py_sum, spec_average, spec_mean.
  rewrite length_map, spec_deltas_length.
  replace (Z.of_nat (List.length times - 1)) with (Z.of_nat (List.length times) - 1)
    by lia.
  destruct (map (spec_convert u) (spec_deltas times)) eqn:Hm; [|reflexivity].
  apply (f_equal (@List.length _)) in Hm.
  rewrite length_map, spec_deltas_length in Hm. cbn in Hm. lia.
Qed.

Lemma averages_unit u items : forall result,
  averages (unit_name u) items result =
  Return (fold_left
            (fun res item => dict_set res (fst item) (stored_average u (snd item)))
            items result).
Proof.
  induction items as [|[typ times] items IH]; intros result; [reflexivity|].
  cbn [averages fold_left fst snd]. rewrite average_of_unit. cbn [obind].
  apply IH.
Qed.

Lemma fold_set_get {A} (g : A -> pyval) (items : dict A) typ : forall result,
  NoDup (dict_keys items) ->
  dict_get (fold_left (fun res item => dict_set res (fst item) (g (snd item)))
                      items result) typ =
  match dict_get items typ with
  | Some a => Some (g a)
  | None => dict_get result typ
  end.
Proof.
  induction items as [|[k a] items IH]; intros result Hnd; [reflexivity|].
  inversion Hnd as [|? ? Hnotin Hnd']; subst.
  cbn [fold_left fst snd dict_get]. rewrite (IH _ Hnd').
  destruct (String.eqb_spec k typ) as [->|Hne].
  - rewrite (dict_get_not_In_keys items typ Hnotin).
    apply dict_get_set_same.
  - destruct (dict_get items typ); [reflexivity|].
    now apply dict_get_set_other.
Qed.

(** What [calculate_average_time] returns under one of the three units. *)
Lemma calculate_average_time_unit u events :
  events <> [] ->
  exists result,
    calculate_average_time (unit_name u) events = Return (Some result)
    /\ forall typ,
         dict_get result typ =
         match times_of_type typ events with
         | [] => None
         | ts => Some (stored_average u ts)
         end.
Proof.
  intros Hne. unfold calculate_average_time.
  destruct events as [|e events]; [congruence|].
  rewrite averages_unit. cbn [obind].
  eexists. split; [reflexivity|]. intros typ.
  rewrite fold_set_get by apply group_times_NoDup.
  rewrite group_times_get.
  destruct (times_of_type typ (e :: events)); reflexivity.
Qed.

(** ** C4 and C5: the averages *)

(** C4.  For a type with at least two events in the input, the aggregator
    stores the mean of the n-1 consecutive deltas of that type, each
    converted to the configured unit, rounded to three decimals once, after
    the mean is taken.  This holds for every order of the input, so also
    for the ascending order of the query. *)
Theorem C4_average_is_rounded_mean_of_deltas
    (u : TimeUnit) (events : list Row) (typ : string) :
  (2 <= List.length (times_of_type typ events))%nat ->
  exists result,
    calculate_average_time (unit_name u) events = Return (Some result)
    /\ dict_get result typ
       = Some (PyFloat (spec_average u (times_of_type typ events)))
    /\ List.length (spec_deltas (times_of_type typ events))
       = (List.length (times_of_type typ events) - 1)%nat.
Proof.
  intros Hn.
  assert (Hne : events <> []).
  { intros ->. cbn in Hn. lia. }
  destruct (calculate_average_time_unit u events Hne) as (result & Hres & Hget).
  exists result. split; [exact Hres|]. split; [|apply spec_deltas_length].
  rewrite Hget. unfold stored_average.
  destruct (times_of_type typ events) as [|t0 ts] eqn:Hts; [cbn in Hn; lia|].
  destruct (Nat.ltb_spec (List.length (t0 :: ts)) 2); [lia|reflexivity].
Qed.

(** C5.  A type of the input with fewer than two events is mapped to the
    integer 0. *)
Theorem C5_single_event_type_maps_to_zero
    (u : TimeUnit) (events : list Row) (typ : string) :
  In typ (map row_type events) ->
  (List.length (times_of_type typ events) < 2)%nat ->
  exists result,
    calculate_average_time (unit_name u) events = Return (Some result)
    /\ dict_get result typ = Some (PyInt 0).
Proof.
  intros Hin Hn.
  assert (Hne : events <> []) by (intros ->; destruct Hin).
  destruct (calculate_average_time_unit u events Hne) as (result & Hres & Hget).
  exists result. split; [exact Hres|].
  rewrite Hget. unfold stored_average.
  destruct (times_of_type typ events) as [|t0 ts] eqn:Hts.
  - exfalso. apply in_map_iff in Hin. destruct Hin as (e & Hty & He).
    assert (Hin' : In (event_timestamp e) (times_of_type typ events)).
    { unfold times_of_type. apply in_map, filter_In. split; [exact He|].
      rewrite Hty. apply String.eqb_refl. }
    rewrite Hts in Hin'. destruct Hin'.
  - destruct (Nat.ltb_spec (List.length (t0 :: ts)) 2); [reflexivity|lia].
Qed.

(** A type with no event in the input is not a key of the result. *)
Lemma absent_type_has_no_entry (u : TimeUnit) (events : list Row) (typ : string)
    (result : dict pyval) :
  ~ In typ (map row_type events) ->
  calculate_average_time (unit_name u) events = Return (Some result) ->
  dict_get result typ = None.
Proof.
  intros Hnot Hres.
  destruct events as [|e events]; [discriminate|].
  destruct (calculate_average_time_unit u (e :: events)) as (res & Hres' & Hget);
    [discriminate|].
  rewrite Hres in Hres'. inversion Hres'; subst res.
  rewrite Hget.
  destruct (times_of_type typ (e :: events)) as [|t0 ts] eqn:Hts; [reflexivity|].
  exfalso. apply Hnot.
  assert (Hin : In t0 (times_of_type typ (e :: events)))
    by (rewrite Hts; now left).
  unfold times_of_type in Hin. apply in_map_iff in Hin.
  destruct Hin as (row & _ & Hrow). apply filter_In in Hrow.
  destruct Hrow as [Hrow Heq]. apply String.eqb_eq in Heq.
  apply in_map_iff. exists row. auto.
Qed.

(** ** The statistics endpoint *)

Lemma fold_set_NoDup {A} (g : A -> pyval) (items : dict A) : forall result,
  NoDup (dict_keys result) ->
  NoDup (dict_keys
           (fold_left (fun res item => dict_set res (fst item) (g (snd item)))
                      items result)).
Proof.
  induction items as [|[k a] items IH]; intros result Hnd; [exact Hnd|].
  cbn [fold_left]. apply IH. now apply dict_keys_set_NoDup.
Qed.

Lemma calculate_average_time_NoDup u events result :
  calculate_average_time (unit_name u) events = Return (Some result) ->
  NoDup (dict_keys result).
Proof.
  unfold calculate_average_time. destruct events as [|e events]; [discriminate|].
  rewrite averages_unit. cbn [obind]. intros H. inversion H; subst.
  apply fold_set_NoDup. constructor.
Qed.

Lemma calculate_average_time_nonempty u events :
  events <> [] ->
  exists item stats,
    calculate_average_time (unit_name u) events = Return (Some (item :: stats)).
Proof.
  intros Hne.
  destruct (calculate_average_time_unit u events Hne) as (result & Hres & Hget).
  destruct events as [|e events]; [congruence|].
  destruct result as [|item stats]; [|eauto].
  specialize (Hget (row_type e)). cbn in Hget.
  unfold times_of_type in Hget. cbn [filter] in Hget.
  rewrite String.eqb_refl in Hget. discriminate.
Qed.

Lemma get_db_statistics_unit u cfg t repository :
  delta cfg = unit_name u ->
  get_db_statistics cfg (Some t) (owner repository) (repo repository)
  = Return (statistics_of u t repository).
Proof.
  intros Hu. unfold get_db_statistics, statistics_of. rewrite Hu.
  destruct (select_events t (owner repository) (repo repository)) as [|e es] eqn:E;
    [reflexivity|].
  destruct (calculate_average_time_unit u (e :: es)) as (res & -> & _);
    [discriminate|reflexivity].
Qed.

Lemma statistics_of_empty u t repository :
  select_events t (owner repository) (repo repository) = [] ->
  statistics_of u t repository = None.
Proof. unfold statistics_of. now intros ->. Qed.

Lemma statistics_loop_unit u cfg t repos : forall result,
  delta cfg = unit_name u ->
  statistics_loop cfg (Some t) repos result =
  Return (fold_left
            (fun res repository =>
               render res (repo repository) (statistics_of u t repository))
            repos result).
Proof.
  induction repos as [|r repos IH]; intros result Hu; [reflexivity|].
  cbn [statistics_loop fold_left].
  rewrite (get_db_statistics_unit u cfg t r Hu). cbn [obind].
  unfold render.
  destruct (statistics_of u t r) as [[|item stats]|]; apply IH; exact Hu.
Qed.

Lemma store_statistics_other result r stats r' :
  r <> r' ->
  dict_get (store_statistics result r stats) r' = dict_get result r'.
Proof.
  intros Hne. unfold store_statistics. revert result.
  induction stats as [|item stats IH]; intros result; [reflexivity|].
  cbn [fold_left]. rewrite IH. now apply dict_get_set_other.
Qed.

(** After the loop over its items, the sub-mapping of the repository name is
    the former one updated with every item. *)
Lemma store_statistics_same result r item stats :
  dict_get (store_statistics result r (item :: stats)) r =
  Some (fold_left (fun sub it => dict_set sub (fst it) (snd it))
                  (item :: stats) (dict_get_default result r [])).
Proof.
  unfold store_statistics.
  assert (H : forall (stats : dict pyval) (result : dict (dict pyval))
                    (sub : dict pyval),
             dict_get result r = Some sub ->
             dict_get (fold_left
                         (fun result it =>
                            dict_set result r
                              (dict_set (dict_get_default result r [])
                                        (fst it) (snd it)))
                         stats result) r
             = Some (fold_left (fun sub it => dict_set sub (fst it) (snd it))
                               stats sub)).
  { clear. induction stats as [|it stats IH]; intros result sub Hsub;
      [exact Hsub|].
    cbn [fold_left]. apply IH.
    rewrite dict_get_set_same. unfold dict_get_default, dict in *.
    now rewrite Hsub. }
  cbn [fold_left]. apply H. apply dict_get_set_same.
Qed.

Lemma update_get (stats : dict pyval) typ : forall sub,
  NoDup (dict_keys stats) ->
  dict_get (fold_left (fun sub it => dict_set sub (fst it) (snd it)) stats sub)
           typ =
  match dict_get stats typ with
  | Some v => Some v
  | None => dict_get sub typ
  end.
Proof. intros sub Hnd. apply (fold_set_get (fun v => v) stats typ sub Hnd). Qed.

Lemma render_other result r statistics r' :
  r <> r' -> dict_get (render result r statistics) r' = dict_get result r'.
Proof.
  intros Hne. unfold render.
  destruct statistics as [[|item stats]|];
    [now apply dict_get_set_other|now apply store_statistics_other
    |now apply dict_get_set_other].
Qed.

Lemma render_present result r statistics :
  dict_get (render result r statistics) r <> None.
Proof.
  unfold render. destruct statistics as [[|item stats]|].
  - now rewrite dict_get_set_same.
  - now rewrite store_statistics_same.
  - now rewrite dict_get_set_same.
Qed.

Lemma render_none result r : dict_get (render result r None) r = Some [].
Proof. apply dict_get_set_same. Qed.

Lemma render_all_cons u t r repos result :
  render_all u t (r :: repos) result
  = render_all u t repos (render result (repo r) (statistics_of u t r)).
Proof. reflexivity. Qed.

Lemma render_all_app u t pre post result :
  render_all u t (pre ++ post) result
  = render_all u t post (render_all u t pre result).
Proof. apply fold_left_app. Qed.

(** Repositories with other names leave the entry of a name as it is. *)
Lemma render_all_other u t repos k : forall result,
  (forall r, In r repos -> repo r <> k) ->
  dict_get (render_all u t repos result) k = dict_get result k.
Proof.
  induction repos as [|r repos IH]; intros result Hk; [reflexivity|].
  rewrite render_all_cons.
  rewrite IH by (intros; apply Hk; now right).
  apply render_other. apply Hk. now left.
Qed.

(** Once a name has an entry it keeps one. *)
Lemma render_all_present u t repos k : forall result,
  dict_get result k <> None ->
  dict_get (render_all u t repos result) k <> None.
Proof.
  induction repos as [|r repos IH]; intros result Hk; [exact Hk|].
  rewrite render_all_cons.
  apply IH. destruct (String.eqb_spec (repo r) k) as [<-|Hne].
  - apply render_present.
  - now rewrite render_other.
Qed.

(** An empty entry stays empty as long as the later repositories of that
    name have no rows. *)
Lemma render_all_empty u t repos k : forall result,
  dict_get result k = Some [] ->
  (forall r, In r repos -> repo r = k ->
             select_events t (owner r) (repo r) = []) ->
  dict_get (render_all u t repos result) k = Some [].
Proof.
  induction repos as [|r repos IH]; intros result Hk Hempty; [exact Hk|].
  rewrite render_all_cons.
  apply IH; [|intros; apply Hempty; [now right|assumption]].
  destruct (String.eqb_spec (repo r) k) as [Heq|Hne].
  - rewrite statistics_of_empty by (apply Hempty; [now left|exact Heq]).
    rewrite <- Heq. apply render_none.
  - now rewrite render_other.
Qed.

Lemma get_api_statistics_unit u cfg t :
  delta cfg = unit_name u ->
  get_api_statistics cfg (Some t)
  = Return (render_all u t (repositories cfg) []).
Proof. intros Hu. apply statistics_loop_unit, Hu. Qed.

(** ** C6: repositories without rows *)

(** C6, as stated, fails: alice/proj is tracked and has no row, yet the entry
    under its name is not empty, because bob/proj comes later, has rows, and
    writes under the same name. *)
Lemma C6_later_repository_fills_entry :
  In (mkRepository "alice" "proj") (repositories two_owners)
  /\ select_events rows_of_bob "alice" "proj" = []
  /\ get_api_statistics two_owners (Some rows_of_bob)
     = Return [("proj", [("PushEvent", PyFloat Float64.one)])]
  /\ dict_get [("proj", [("PushEvent", PyFloat Float64.one)])] "proj"
     <> Some [].
Proof.
  split; [left; reflexivity|]. split; [reflexivity|].
  split; [reflexivity|]. discriminate.
Qed.

(** C6, amended.  On an empty input the aggregator returns [None], which is
    not the empty mapping.  Under a valid unit the endpoint returns a
    mapping in which every tracked repository without rows has an entry
    under its name; the entry is the empty mapping when no repository later
    in the configuration has the same name and rows. *)
Theorem C6_repository_without_rows_has_entry :
  (forall delta, calculate_average_time delta [] = Return None)
  /\ (None : option (dict pyval)) <> Some []
  /\ (forall u cfg t,
        delta cfg = unit_name u ->
        exists result,
          get_api_statistics cfg (Some t) = Return result
          /\ forall pre r post,
               repositories cfg = pre ++ r :: post ->
               select_events t (owner r) (repo r) = [] ->
               dict_get result (repo r) <> None
               /\ ((forall r', In r' post -> repo r' = repo r ->
                               select_events t (owner r') (repo r') = []) ->
                   dict_get result (repo r) = Some [])).
Proof.
  split; [reflexivity|]. split; [discriminate|].
  intros u cfg t Hu. eexists. split; [apply (get_api_statistics_unit u), Hu|].
  intros pre r post Hrepos Hnone.
  rewrite Hrepos, render_all_app, render_all_cons.
  rewrite (statistics_of_empty u t r Hnone).
  split.
  - apply render_all_present. now rewrite render_none.
  - intros Hlater. apply render_all_empty; [apply render_none|exact Hlater].
Qed.

Lemma C6_repository_without_rows_has_entry_witness :
  delta two_owners = unit_name minute
  /\ exists result,
       get_api_statistics two_owners (Some rows_of_bob) = Return result
       /\ forall pre r post,
            repositories two_owners = pre ++ r :: post ->
            select_events rows_of_bob (owner r) (repo r) = [] ->
            dict_get result (repo r) <> None
            /\ ((forall r', In r' post -> repo r' = repo r ->
                            select_events rows_of_bob (owner r') (repo r') = [])
                -> dict_get result (repo r) = Some []).
Proof.
  split; [reflexivity|].
  exact (proj2 (proj2 C6_repository_without_rows_has_entry)
               minute two_owners rows_of_bob eq_refl).
Defined.

(** ** C10: repositories that share a name *)

(** C10.  The result is keyed by the repository name alone.  When two
    tracked repositories have the same name and no repository after the
    later one has it too, the entry under that name holds every average of
    the later repository, whatever the earlier one stored for that type;
    types the later repository does not have keep what was stored before;
    and when the later repository has no rows the entry is the empty
    mapping. *)
Theorem C10_same_name_repositories_share_entry
    (u : TimeUnit) (cfg : Config) (t : Table)
    (pre mid post : list Repository) (r1 r2 : Repository) :
  delta cfg = unit_name u ->
  repositories cfg = pre ++ r1 :: mid ++ r2 :: post ->
  repo r1 = repo r2 ->
  (forall r, In r post -> repo r <> repo r2) ->
  exists result,
    get_api_statistics cfg (Some t) = Return result
    /\ (select_events t (owner r2) (repo r2) = [] ->
        dict_get result (repo r1) = Some [])
    /\ (forall stats,
          get_db_statistics cfg (Some t) (owner r2) (repo r2)
            = Return (Some stats) ->
          exists sub,
            dict_get result (repo r1) = Some sub
            /\ (forall typ v, dict_get stats typ = Some v ->
                              dict_get sub typ = Some v)
            /\ (forall earlier,
                  get_api_statistics (mkConfig (pre ++ r1 :: mid) (delta cfg))
                                     (Some t) = Return earlier ->
                  forall typ, dict_get stats typ = None ->
                    dict_get sub typ
                    = dict_get (dict_get_default earlier (repo r1) []) typ)).
Proof.
  intros Hu Hrepos Hname Hlast.
  eexists. split; [apply (get_api_statistics_unit u), Hu|].
  rewrite Hrepos, Hname.
  replace (pre ++ r1 :: mid ++ r2 :: post)
    with ((pre ++ r1 :: mid) ++ r2 :: post)
    by (rewrite <- app_assoc; reflexivity).
  rewrite render_all_app, render_all_cons.
  rewrite (render_all_other u t post (repo r2)) by exact Hlast.
  split.
  - intros Hnone. rewrite (statistics_of_empty u t r2 Hnone). apply render_none.
  - intros stats Hstats.
    rewrite (get_db_statistics_unit u cfg t r2 Hu) in Hstats.
    inversion Hstats as [Hso]. rewrite Hso.
    assert (Hnd : NoDup (dict_keys stats)).
    { apply (calculate_average_time_NoDup u
               (select_events t (owner r2) (repo r2))).
      unfold statistics_of in Hso.
      destruct (calculate_average_time (unit_name u)
                  (select_events t (owner r2) (repo r2))); congruence. }
    destruct stats as [|item stats].
    + exists []. split; [apply dict_get_set_same|].
      split; [discriminate|]. intros earlier Hearlier typ _.
      (* no statistics: this case does not arise, a result has a key *)
      exfalso. unfold statistics_of in Hso.
      destruct (select_events t (owner r2) (repo r2)) as [|e es] eqn:E;
        [discriminate|].
      destruct (calculate_average_time_nonempty u (e :: es))
        as (it & st & Hc); [discriminate|].
      rewrite Hc in Hso. discriminate.
    + eexists. split; [apply store_statistics_same|].
      split.
      * intros typ v Hv. rewrite (update_get _ typ _ Hnd). now rewrite Hv.
      * intros earlier Hearlier typ Hv.
        rewrite (get_api_statistics_unit u) in Hearlier by exact Hu.
        cbn [repositories] in Hearlier. inversion Hearlier; subst earlier.
        rewrite (update_get _ typ _ Hnd). now rewrite Hv.
Qed.

(** ** C7: a fetch that fails *)

Lemma for_each_app {A} (xs ys : list A) (body : A -> M unit) : forall f,
  for_each (xs ++ ys) body f =
  match for_each xs body f with
  | (f', Return _) => for_each ys body f'
  | (f', Raise e) => (f', Raise e)
  end.
Proof.
  induction xs as [|x xs IH]; intros f; [reflexivity|].
  rewrite <- app_comm_cons, !for_each_cons.
  destruct (body x f) as [f1 [[]|ex]]; [apply IH|reflexivity].
Qed.

Lemma repositories_trace_app capacity w xs ys : forall f,
  repositories_trace capacity w (xs ++ ys) f =
  repositories_trace capacity w xs f ++
  match for_each xs (process_repository capacity w) f with
  | (f', Return _) => repositories_trace capacity w ys f'
  | (_, Raise _) => []
  end.
Proof.
  induction xs as [|r xs IH]; intros f; [reflexivity|].
  rewrite <- app_comm_cons, for_each_cons, process_repository_eq.
  cbn [repositories_trace].
  destruct (get_github_events w (owner r) (repo r)) as [events|ex];
    [|reflexivity].
  destruct (for_each events (process_event capacity w r) f) as [f1 [[]|ex]].
  - rewrite IH, app_assoc. reflexivity.
  - rewrite !app_nil_r. reflexivity.
Qed.

(** C7.  When the cycle reaches a repository whose fetch raises, it stops
    there with that exception: the frame is the one the earlier
    repositories left, with every row they inserted, and no event of a
    later repository is processed. *)
Theorem C7_failed_fetch_aborts_cycle
    (w : World) (unit : string) (pre post : list Repository) (r : Repository)
    (f f1 : Frame) (e : exn) :
  update_data w (mkConfig pre unit) f = (f1, Return "Data were updated.") ->
  get_github_events w (owner r) (repo r) = Raise e ->
  update_data w (mkConfig (pre ++ r :: post) unit) f = (f1, Raise e)
  /\ update_data_trace 500 w (mkConfig (pre ++ r :: post) unit) f
     = update_data_trace 500 w (mkConfig pre unit) f.
Proof.
  unfold update_data, update_data_trace. rewrite !update_data_with_eq.
  cbn [repositories]. intros Hpre Hfetch.
  destruct (database f) as [t|]; [|discriminate].
  rewrite for_each_app, repositories_trace_app.
  destruct (for_each pre (process_repository 500 w) (reset_frame f))
    as [f2 [[]|ex]]; [|discriminate].
  inversion Hpre; subst f2.
  rewrite for_each_cons, process_repository_eq. cbn [repositories_trace].
  rewrite Hfetch, app_nil_r. split; reflexivity.
Qed.

(** The scenario of the spec: the fetch of the second repository fails. *)
Lemma C7_failed_fetch_aborts_cycle_witness :
  let w := mkWorld (fun o _ => if String.eqb o "alice"
                               then JsonBody [pushed_at (seconds 1)]
                               else HttpError)
                   (fun _ => seconds 5) in
  let alice := mkRepository "alice" "proj" in
  let bob := mkRepository "bob" "proj" in
  let f1 := mkFrame (Some (mkTable [mkRow 1 "alice" "proj" (seconds 1)
                                          "PushEvent"] 2)) 1 1 in
  update_data w (mkConfig ([alice] ++ bob :: [alice]) "minute") empty_frame
    = (f1, Raise RequestException)
  /\ update_data_trace 500 w (mkConfig ([alice] ++ bob :: [alice]) "minute")
                       empty_frame
     = update_data_trace 500 w (mkConfig [alice] "minute") empty_frame.
Proof.
  intros w alice bob f1.
  apply (C7_failed_fetch_aborts_cycle w "minute" [alice] [alice] bob
                                      empty_frame f1 RequestException);
    reflexivity.
Defined.

(** ** C8: what a cycle stores *)

Lemma passing_events_cons w k repository e events :
  passing_events w k repository (e :: events) =
  match created_at e with
  | None => []
  | Some ts =>
      if timedelta_days (clock w k - ts) >? 7
      then passing_events w (S k) repository events
      else match event_type e with
           | None => []
           | Some ty =>
               (owner repository, repo repository, ts, ty)
                 :: passing_events w (S k) repository events
           end
  end.
Proof. reflexivity. Qed.

Lemma records_insert t o r ts ty :
  records (insert_row t o r ts ty) = records t ++ [(o, r, ts, ty)].
Proof. unfold records. cbn [insert_row rows]. now rewrite map_app. Qed.

Lemma records_length t : List.length (records t) = List.length (rows t).
Proof. apply length_map. Qed.

Lemma records_store qs : forall t,
  records (fold_left store_record qs t) = records t ++ qs.
Proof.
  induction qs as [|[[[o r] ts] ty] qs IH]; intros t; cbn [fold_left].
  - now rewrite app_nil_r.
  - rewrite IH. cbn [store_record]. rewrite records_insert, <- app_assoc.
    reflexivity.
Qed.

(** A loop over the events of one response that ends without exception has
    inserted the events that pass the test, in order. *)
Lemma events_loop_store capacity w repository events : forall f f' u t,
  database f = Some t ->
  current_count f = Z.of_nat (List.length (rows t)) ->
  for_each events (process_event capacity w repository) f = (f', Return u) ->
  let t' := fold_left store_record
                      (passing_events w (clock_reads f) repository events) t in
  database f' = Some t'
  /\ current_count f' = Z.of_nat (List.length (rows t'))
  /\ clock_reads f' = (clock_reads f + List.length events)%nat.
Proof.
  induction events as [|e events IH]; intros f f' u t Hdb Hcount Hloop.
  - inversion Hloop; subst. cbn. rewrite Nat.add_0_r. auto.
  - rewrite for_each_cons, process_event_eq, Hdb in Hloop.
    rewrite passing_events_cons.
    destruct (created_at e) as [ts|]; [|discriminate].
    destruct (timedelta_days (clock w (clock_reads f) - ts) >? 7).
    + destruct (IH (tick f) f' u t Hdb Hcount Hloop) as (H1 & H2 & H3).
      cbn [tick clock_reads] in *. cbn [List.length].
      rewrite H3. repeat split; try assumption. lia.
    + destruct (current_count f >=? capacity); [discriminate|].
      destruct (event_type e) as [ty|]; [|discriminate].
      cbn [fold_left store_record].
      edestruct IH as (H1 & H2 & H3); [| |exact Hloop|].
      { reflexivity. }
      { cbn [current_count]. rewrite insert_row_length. lia. }
      cbn [clock_reads] in *. cbn [List.length]. rewrite H3.
      repeat split; try assumption. lia.
Qed.

(** However the loop over the events of one response ends, it has inserted
    the first of the events that pass the test and no other; when it ends
    with the syntax error the counter had reached the capacity. *)
Lemma events_loop_prefix capacity w repository events : forall f f' o t,
  database f = Some t ->
  current_count f = Z.of_nat (List.length (rows t)) ->
  for_each events (process_event capacity w repository) f = (f', o) ->
  exists n,
    (n <= List.length (passing_events w (clock_reads f) repository events))%nat
    /\ database f'
       = Some (fold_left store_record
                 (firstn n (passing_events w (clock_reads f) repository events))
                 t)
    /\ (o = Raise SyntaxError ->
        capacity <= Z.of_nat (List.length (rows t)) + Z.of_nat n)
    /\ (o = Raise KeyError ->
        Z.of_nat (List.length (rows t)) + Z.of_nat n < capacity).
Proof.
  induction events as [|e events IH]; intros f f' o t Hdb Hcount Hloop.
  - inversion Hloop; subst. exists 0%nat. cbn. split; [lia|].
    split; [exact Hdb|]. split; discriminate.
  - rewrite for_each_cons, process_event_eq, Hdb in Hloop.
    rewrite passing_events_cons.
    destruct (created_at e) as [ts|].
    2:{ inversion Hloop; subst. exists 0%nat. cbn. split; [lia|].
        split; [exact Hdb|]. split; discriminate. }
    destruct (timedelta_days (clock w (clock_reads f) - ts) >? 7).
    { exact (IH (tick f) f' o t Hdb Hcount Hloop). }
    destruct (Z.geb_spec (current_count f) capacity) as [Hfull|Hroom].
    { inversion Hloop; subst. exists 0%nat. cbn [firstn fold_left tick database].
      split; [lia|]. split; [exact Hdb|]. split; [intros _; lia|discriminate]. }
    destruct (event_type e) as [ty|].
    2:{ inversion Hloop; subst. exists 0%nat. cbn [firstn fold_left database].
        split; [cbn; lia|]. split; [reflexivity|].
        split; [discriminate|intros _; lia]. }
    edestruct IH as (n & Hn & Hdb' & Hsyn & Hkey); [| |exact Hloop|].
    { reflexivity. }
    { cbn [current_count]. rewrite insert_row_length. lia. }
    cbn [clock_reads] in *. exists (S n). cbn [List.length firstn fold_left].
    split; [lia|]. split; [exact Hdb'|].
    rewrite insert_row_length in Hsyn, Hkey.
    split; intros Ho; [specialize (Hsyn Ho)|specialize (Hkey Ho)]; lia.
Qed.

Lemma get_github_events_Return w o r events :
  get_github_events w o r = Return events -> github w o r = JsonBody events.
Proof.
  unfold get_github_events. destruct (github w o r); congruence.
Qed.

Lemma get_github_events_Raise w o r ex :
  get_github_events w o r = Raise ex ->
  ex = RequestException \/ ex = ValueError.
Proof.
  unfold get_github_events. destruct (github w o r); intros H; inversion H; auto.
Qed.

(** A loop over the repositories that ends without exception has inserted
    the accepted events, in order. *)
Lemma repositories_loop_store capacity w repos : forall f f' u t,
  database f = Some t ->
  current_count f = Z.of_nat (List.length (rows t)) ->
  for_each repos (process_repository capacity w) f = (f', Return u) ->
  database f'
  = Some (fold_left store_record
                    (accepted_events w (clock_reads f) repos) t).
Proof.
  induction repos as [|r repos IH]; intros f f' u t Hdb Hcount Hloop.
  - inversion Hloop; subst. exact Hdb.
  - rewrite for_each_cons, process_repository_eq in Hloop.
    destruct (get_github_events w (owner r) (repo r)) as [events|ex] eqn:Hfetch;
      [|discriminate].
    cbn [accepted_events].
    rewrite (get_github_events_Return _ _ _ _ Hfetch), fold_left_app.
    destruct (for_each events (process_event capacity w r) f)
      as [f1 [[]|ex]] eqn:Hevents; [|discriminate].
    destruct (events_loop_store _ _ _ _ _ _ _ _ Hdb Hcount Hevents)
      as (H1 & H2 & H3).
    rewrite <- H3. eapply IH; eassumption.
Qed.

(** However the loop over the repositories ends, the table holds what it
    held before, followed by the first of the accepted events. *)
Lemma repositories_loop_prefix capacity w repos : forall f f' o t,
  database f = Some t ->
  current_count f = Z.of_nat (List.length (rows t)) ->
  for_each repos (process_repository capacity w) f = (f', o) ->
  exists n,
    database f'
    = Some (fold_left store_record
              (firstn n (accepted_events w (clock_reads f) repos)) t)
    /\ (n <= List.length (accepted_events w (clock_reads f) repos))%nat
    /\ (o = Raise SyntaxError ->
        capacity <= Z.of_nat (List.length (rows t)) + Z.of_nat n)
    /\ (o = Raise KeyError ->
        Z.of_nat (List.length (rows t)) + Z.of_nat n < capacity).
Proof.
  induction repos as [|r repos IH]; intros f f' o t Hdb Hcount Hloop.
  - inversion Hloop; subst. exists 0%nat. cbn.
    split; [exact Hdb|]. split; [lia|]. split; discriminate.
  - rewrite for_each_cons, process_repository_eq in Hloop.
    destruct (get_github_events w (owner r) (repo r)) as [events|ex] eqn:Hfetch.
    2:{ inversion Hloop; subst. exists 0%nat. cbn [firstn fold_left].
        split; [exact Hdb|]. split; [lia|].
        apply get_github_events_Raise in Hfetch.
        split; intros Ho; inversion Ho; subst;
          destruct Hfetch; discriminate. }
    cbn [accepted_events]. rewrite (get_github_events_Return _ _ _ _ Hfetch).
    destruct (for_each events (process_event capacity w r) f)
      as [f1 o1] eqn:Hevents.
    destruct o1 as [[]|ex1].
    + destruct (events_loop_store _ _ _ _ _ _ _ _ Hdb Hcount Hevents)
        as (H1 & H2 & H3).
      destruct (IH f1 f' o _ H1 H2 Hloop) as (n & Hdb' & Hn & Hsyn & Hkey).
      rewrite H3 in Hdb', Hn.
      exists (List.length (passing_events w (clock_reads f) r events) + n)%nat.
      rewrite firstn_app_2, fold_left_app.
      split; [exact Hdb'|]. split; [rewrite length_app; lia|].
      rewrite <- records_length, records_store, length_app, records_length
        in Hsyn, Hkey.
      split; intros Ho; [specialize (Hsyn Ho)|specialize (Hkey Ho)]; lia.
    + inversion Hloop; subst.
      destruct (events_loop_prefix _ _ _ _ _ _ _ _ Hdb Hcount Hevents)
        as (n & Hn & Hdb' & Hsyn & Hkey).
      exists n. rewrite firstn_app.
      replace (n - List.length (passing_events w (clock_reads f) r events))%nat
        with 0%nat by lia.
      cbn [firstn]. rewrite app_nil_r.
      split; [exact Hdb'|]. split; [rewrite length_app; lia|].
      split; assumption.
Qed.

(** C8.  A successful cycle can leave a row that is not a qualifying event:
    an event 7 days and 1 hour old is beyond the window of 7 days, passes
    the test on [time_difference.days] all the same and is stored. *)
Theorem C8_store_holds_event_beyond_window :
  let created := noon - timedelta_of 7 1 0 0 in
  let w := mkWorld (fun _ _ => JsonBody [pushed_at created]) (fun _ => noon) in
  let final := update_data w one_repository empty_frame in
  snd final = Return "Data were updated."
  /\ noon - created > freshness_window
  /\ spec_qualifying_events w 0 (repositories one_repository) = []
  /\ match database (fst final) with
     | Some t => records t
     | None => []
     end = [("octocat", "hello", created, "PushEvent")].
Proof. repeat split. Qed.

(** ** C9: evenly spaced events *)

Lemma progression_S t0 d n :
  progression t0 d (S n) = t0 :: progression (t0 + d) d n.
Proof.
  unfold progression. cbn [seq map].
  rewrite <- seq_shift, map_map.
  replace (t0 + Z.of_nat 0 * d) with t0 by lia.
  apply (f_equal (cons t0)), map_ext. intros i. lia.
Qed.

Lemma spec_deltas_progression d n : forall t0,
  spec_deltas (progression t0 d n) = repeat d (n - 1).
Proof.
  induction n as [|n IH]; intros t0; [reflexivity|].
  rewrite progression_S. destruct n as [|n]; [reflexivity|].
  specialize (IH (t0 + d)). rewrite progression_S in IH |- *.
  change (spec_deltas (t0 :: t0 + d :: progression (t0 + d + d) d n))
    with ((t0 + d - t0)
            :: spec_deltas (t0 + d :: progression (t0 + d + d) d n)).
  replace (S (S n) - 1)%nat with (S (S n - 1)) by lia.
  cbn [repeat]. apply f_equal2; [lia|exact IH].
Qed.

Lemma group_fold_single typ l : forall ts,
  Forall (fun p => fst p = typ) l ->
  fold_left append_time l [(typ, ts)] = [(typ, ts ++ map snd l)].
Proof.
  induction l as [|[k t] l IH]; intros ts Hall.
  - cbn. now rewrite app_nil_r.
  - inversion Hall as [|? ? Hk Hall']. cbn [fst] in Hk. subst.
    cbn [fold_left]. unfold append_time at 2. cbn [fst snd].
    unfold dict_get_default. cbn [dict_get dict_set].
    rewrite String.eqb_refl. rewrite (IH _ Hall').
    cbn [map snd]. now rewrite <- app_assoc.
Qed.

Lemma group_times_single typ events :
  events <> [] ->
  Forall (fun e => row_type e = typ) events ->
  group_times (type_and_date events) = [(typ, map event_timestamp events)].
Proof.
  intros Hne Hall. destruct events as [|e events]; [congruence|].
  inversion Hall as [|? ? He Hall']; subst.
  unfold group_times. cbn [type_and_date map fold_left].
  unfold append_time at 2. cbn [fst snd dict_set dict_get_default dict_get].
  rewrite group_fold_single.
  - cbn [app]. unfold type_and_date. rewrite map_map. reflexivity.
  - clear - Hall'. induction Hall' as [|x l Hx _ IH]; constructor; assumption.
Qed.

(** C9, as stated, fails: two events one second apart, in minutes.  The
    code returns 0.017, the float nearest to 17/1000; one second expressed
    in minutes is 0.016666666666666666, the float nearest to 1/60. *)
Lemma C9_average_differs_from_delta :
  calculate_average_time "minute" [pushed 1 (seconds 0); pushed 2 (seconds 1)]
  = Return (Some [("PushEvent", PyFloat (Float64.int_truediv 17 1000))])
  /\ date_transform_to (seconds 1 - seconds 0) "minute"
     = Return (Float64.int_truediv 1 60)
  /\ Float64.int_truediv 17 1000 = S754_finite false 4899916394579100 (-58)
  /\ Float64.int_truediv 1 60 = S754_finite false 4803839602528529 (-58)
  /\ Float64.int_truediv 17 1000 <> Float64.int_truediv 1 60.
Proof.
  split; [reflexivity|]. split; [reflexivity|].
  split; [reflexivity|]. split; [reflexivity|].
  vm_compute. discriminate.
Qed.

(** C9, amended.  For [n >= 2] events of one type spaced [d] apart, the
    aggregator returns, for that type alone, the floating-point mean of
    [n - 1] copies of [d] expressed in the unit, rounded to three decimals.
    Five events 60 seconds apart, in minutes, give exactly 1.0. *)
Theorem C9_evenly_spaced_events :
  (forall u typ t0 d n events,
      (2 <= n)%nat ->
      Forall (fun e => row_type e = typ) events ->
      map event_timestamp events = progression t0 d n ->
      calculate_average_time (unit_name u) events
      = Return (Some [(typ,
                       PyFloat (Float64.round3
                                  (spec_mean (repeat (spec_convert u d)
                                                     (n - 1)))))]))
  /\ calculate_average_time "minute"
       [pushed 1 (seconds 0); pushed 2 (seconds 60); pushed 3 (seconds 120);
        pushed 4 (seconds 180); pushed 5 (seconds 240)]
     = Return (Some [("PushEvent", PyFloat Float64.one)]).
Proof.
  split; [|reflexivity].
  intros u typ t0 d n events Hn Hall Htimes.
  assert (Hlen : List.length events = n).
  { rewrite <- (length_map event_timestamp), Htimes.
    unfold progression. now rewrite length_map, length_seq. }
  assert (Hne : events <> []) by (intros ->; cbn in Hlen; lia).
  replace (calculate_average_time (unit_name u) events)
    with (obind (averages (unit_name u) (group_times (type_and_date events)) [])
                (fun result => Return (Some result)))
    by (destruct events; [congruence|reflexivity]).
  rewrite averages_unit, (group_times_single typ events Hne Hall).
  cbn [obind fold_left fst snd dict_set]. do 4 f_equal.
  unfold stored_average. rewrite length_map, Hlen.
  destruct (Nat.ltb_spec n 2); [lia|].
  unfold spec_average.
  now rewrite Htimes, spec_deltas_progression, map_repeat.
Qed.

Lemma C9_evenly_spaced_events_witness :
  let events := [pushed 1 (seconds 10); pushed 2 (seconds 40);
                 pushed 3 (seconds 70)] in
  (2 <= 3)%nat
  /\ Forall (fun e => row_type e = "PushEvent") events
  /\ map event_timestamp events = progression (seconds 10) (seconds 30) 3
  /\ calculate_average_time (unit_name second) events
     = Return (Some [("PushEvent",
                      PyFloat (Float64.round3
                                 (spec_mean (repeat (spec_convert second
                                                       (seconds 30))
                                                    (3 - 1)))))]).
Proof.
  intros events.
  assert (H1 : (2 <= 3)%nat) by lia.
  assert (H2 : Forall (fun e => row_type e = "PushEvent") events)
    by (repeat constructor).
  assert (H3 : map event_timestamp events
               = progression (seconds 10) (seconds 30) 3) by reflexivity.
  split; [exact H1|]. split; [exact H2|]. split; [exact H3|].
  exact (proj1 C9_evenly_spaced_events second "PushEvent" (seconds 10)
               (seconds 30) 3%nat events H1 H2 H3).
Defined.

(** ** Instances of C4, C5 and C10 *)

Lemma C4_average_is_rounded_mean_of_deltas_witness :
  (2 <= List.length (times_of_type "PushEvent" mixed_events))%nat
  /\ exists result,
       calculate_average_time (unit_name hour) mixed_events
         = Return (Some result)
       /\ dict_get result "PushEvent"
          = Some (PyFloat (spec_average hour
                             (times_of_type "PushEvent" mixed_events)))
       /\ List.length (spec_deltas (times_of_type "PushEvent" mixed_events))
          = (List.length (times_of_type "PushEvent" mixed_events) - 1)%nat.
Proof.
  assert (H : (2 <= List.length (times_of_type "PushEvent" mixed_events))%nat)
    by (cbn; lia).
  split; [exact H|].
  exact (C4_average_is_rounded_mean_of_deltas hour mixed_events "PushEvent" H).
Defined.

Lemma C5_single_event_type_maps_to_zero_witness :
  In "ForkEvent" (map row_type mixed_events)
  /\ (List.length (times_of_type "ForkEvent" mixed_events) < 2)%nat
  /\ exists result,
       calculate_average_time (unit_name hour) mixed_events
         = Return (Some result)
       /\ dict_get result "ForkEvent" = Some (PyInt 0).
Proof.
  assert (H1 : In "ForkEvent" (map row_type mixed_events))
    by (cbn; auto).
  assert (H2 : (List.length (times_of_type "ForkEvent" mixed_events) < 2)%nat)
    by (cbn; lia).
  split; [exact H1|]. split; [exact H2|].
  exact (C5_single_event_type_maps_to_zero hour mixed_events "ForkEvent" H1 H2).
Defined.

Lemma C10_same_name_repositories_share_entry_witness :
  let alice := mkRepository "alice" "proj" in
  let bob := mkRepository "bob" "proj" in
  let t := mkTable [mkRow 1 "alice" "proj" (seconds 0) "PushEvent";
                    mkRow 2 "alice" "proj" (seconds 60) "PushEvent";
                    mkRow 3 "alice" "proj" (seconds 90) "ForkEvent";
                    mkRow 4 "bob" "proj" (seconds 0) "PushEvent";
                    mkRow 5 "bob" "proj" (seconds 120) "PushEvent"] 6 in
  get_api_statistics two_owners (Some t)
    = Return [("proj", [("PushEvent", PyFloat Float64.two);
                        ("ForkEvent", PyInt 0)])]
  /\ exists result,
       get_api_statistics two_owners (Some t) = Return result
       /\ (select_events t (owner bob) (repo bob) = [] ->
           dict_get result (repo alice) = Some [])
       /\ (forall stats,
             get_db_statistics two_owners (Some t) (owner bob) (repo bob)
               = Return (Some stats) ->
             exists sub,
               dict_get result (repo alice) = Some sub
               /\ (forall typ v, dict_get stats typ = Some v ->
                                 dict_get sub typ = Some v)
               /\ (forall earlier,
                     get_api_statistics
                       (mkConfig ([] ++ alice :: []) (delta two_owners))
                       (Some t) = Return earlier ->
                     forall typ, dict_get stats typ = None ->
                       dict_get sub typ
                       = dict_get (dict_get_default earlier (repo alice) [])
                                  typ)).
Proof.
  intros alice bob t. split; [reflexivity|].
  apply (C10_same_name_repositories_share_entry minute two_owners t
           [] [] [] alice bob);
    [reflexivity|reflexivity|reflexivity|intros r []].
Defined.

(** * Further properties of the code *)

(** ** The query of [get_db_statistics] *)

Lemma filter_Permutation {A} (p : A -> bool) (l l' : list A) :
  Permutation l l' -> Permutation (filter p l) (filter p l').
Proof.
  induction 1 as [|x l l' _ IH|x y l|l l' l'' _ IH1 _ IH2]; cbn.
  - constructor.
  - destruct (p x); [now constructor|exact IH].
  - destruct (p x), (p y); try reflexivity. apply perm_swap.
  - now transitivity (filter p l').
Qed.

Lemma filter_StronglySorted {A} (R : A -> A -> Prop) (p : A -> bool) l :
  StronglySorted R l -> StronglySorted R (filter p l).
Proof.
  induction 1 as [|x l Hs IH Hall]; cbn; [constructor|].
  destruct (p x); [|exact IH].
  constructor; [exact IH|].
  apply Forall_forall. intros y Hy. apply filter_In in Hy.
  rewrite Forall_forall in Hall. apply Hall, Hy.
Qed.

Lemma map_StronglySorted {A B} (R : A -> A -> Prop) (R' : B -> B -> Prop)
    (g : A -> B) l :
  (forall x y, R x y -> R' (g x) (g y)) ->
  StronglySorted R l -> StronglySorted R' (map g l).
Proof.
  intros Hg. induction 1 as [|x l Hs IH Hall]; cbn; constructor; [exact IH|].
  apply Forall_forall. intros y Hy. apply in_map_iff in Hy.
  destruct Hy as (z & <- & Hz). rewrite Forall_forall in Hall.
  apply Hg, Hall, Hz.
Qed.

Lemma order_by_timestamp_StronglySorted rs :
  StronglySorted older_or_equal (order_by_timestamp rs).
Proof.
  apply Sorted_StronglySorted; [|apply order_by_timestamp_Sorted].
  intros x y z. unfold older_or_equal. lia.
Qed.

(** The timestamps of one type in the answer of the query ascend. *)
Lemma times_of_type_sorted typ rs :
  StronglySorted Z.le (times_of_type typ (order_by_timestamp rs)).
Proof.
  unfold times_of_type.
  apply (map_StronglySorted older_or_equal); [auto|].
  apply filter_StronglySorted, order_by_timestamp_StronglySorted.
Qed.

Lemma times_of_type_Permutation typ rs rs' :
  Permutation rs rs' ->
  Permutation (times_of_type typ rs) (times_of_type typ rs').
Proof.
  intros H. unfold times_of_type. now apply Permutation_map, filter_Permutation.
Qed.

(** Two ascending lists with the same elements are the same list. *)
Lemma ascending_unique (l1 : list Z) : forall l2,
  StronglySorted Z.le l1 -> StronglySorted Z.le l2 ->
  Permutation l1 l2 -> l1 = l2.
Proof.
  induction l1 as [|a l1 IH]; intros l2 Hs1 Hs2 Hp.
  - now apply Permutation_nil in Hp.
  - destruct l2 as [|b l2].
    + symmetry in Hp. now apply Permutation_nil in Hp.
    + apply StronglySorted_inv in Hs1, Hs2.
      destruct Hs1 as [Hs1 Ha], Hs2 as [Hs2 Hb].
      rewrite Forall_forall in Ha, Hb.
      assert (Hab : a = b).
      { assert (Hin1 : In a (b :: l2))
          by (apply (Permutation_in _ Hp); now left).
        assert (Hin2 : In b (a :: l1))
          by (apply (Permutation_in _ (Permutation_sym Hp)); now left).
        destruct Hin1 as [Hin1|Hin1]; [congruence|].
        destruct Hin2 as [Hin2|Hin2]; [congruence|].
        specialize (Ha _ Hin2). specialize (Hb _ Hin1). lia. }
      subst b. f_equal. apply IH; try assumption.
      now apply Permutation_cons_inv in Hp.
Qed.

(** X1.  The query returns the rows of the repository, all of them and no
    other, oldest first. *)
Theorem X1_query_returns_rows_of_repository_oldest_first
    (t : Table) (o r : string) :
  Sorted older_or_equal (select_events t o r)
  /\ Permutation (select_events t o r) (rows_of t o r).
Proof.
  split; [apply order_by_timestamp_Sorted|].
  apply order_by_timestamp_Permutation.
Qed.

(** ** The deltas of [calculate_average_time] *)

Lemma spec_deltas_total times :
  total (spec_deltas times) = last times 0 - hd 0 times.
Proof.
  induction times as [|t0 [|t1 rest] IH]; [reflexivity|cbn; lia|].
  change (spec_deltas (t0 :: t1 :: rest))
    with ((t1 - t0) :: spec_deltas (t1 :: rest)).
  cbn [total fold_right]. fold (total (spec_deltas (t1 :: rest))).
  rewrite IH.
  change (last (t0 :: t1 :: rest) 0) with (last (t1 :: rest) 0).
  cbn [hd]. lia.
Qed.

(** X2.  The list comprehension yields one delta less than there are
    timestamps, and the deltas sum to the last timestamp minus the first,
    whatever lies between. *)
Theorem X2_deltas_telescope (times : list datetime) :
  List.length (deltas_of times) = (List.length times - 1)%nat
  /\ total (deltas_of times) = last times 0 - hd 0 times.
Proof.
  rewrite deltas_of_spec. split; [apply spec_deltas_length|].
  apply spec_deltas_total.
Qed.

Lemma spec_deltas_nonnegative times :
  StronglySorted Z.le times -> Forall (fun d => 0 <= d) (spec_deltas times).
Proof.
  induction times as [|t0 [|t1 rest] IH]; intros Hs; try constructor.
  - apply StronglySorted_inv in Hs. destruct Hs as [_ Hall].
    rewrite Forall_forall in Hall. specialize (Hall t1 (or_introl eq_refl)).
    lia.
  - apply IH. now apply StronglySorted_inv in Hs.
Qed.

(** X3.  In the statistics of a repository no delta is negative: the query
    hands the events over in ascending order, and so are the events of each
    type. *)
Theorem X3_deltas_of_query_are_nonnegative
    (t : Table) (o r typ : string) :
  Forall (fun d => 0 <= d)
         (deltas_of (times_of_type typ (select_events t o r))).
Proof.
  rewrite deltas_of_spec. apply spec_deltas_nonnegative.
  apply times_of_type_sorted.
Qed.

(** ** [get_db_statistics] *)

Lemma order_by_timestamp_nil rs : order_by_timestamp rs = [] -> rs = [].
Proof.
  intros H. pose proof (order_by_timestamp_Permutation rs) as Hp.
  rewrite H in Hp. now apply Permutation_nil in Hp.
Qed.

Lemma select_events_rows_of t o r :
  select_events t o r = order_by_timestamp (rows_of t o r).
Proof. reflexivity. Qed.

(** X4.  The statistics of a repository depend on its own rows only, and not
    on the order in which they were inserted: two tables whose rows for the
    repository are the same up to order give "no statistics" together, or
    give the same value for every type. *)
Theorem X4_statistics_ignore_insertion_order
    (u : TimeUnit) (cfg : Config) (t1 t2 : Table) (o r : string) :
  delta cfg = unit_name u ->
  Permutation (rows_of t1 o r) (rows_of t2 o r) ->
  match get_db_statistics cfg (Some t1) o r,
        get_db_statistics cfg (Some t2) o r with
  | Return None, Return None => rows_of t1 o r = []
  | Return (Some m1), Return (Some m2) =>
      forall typ, dict_get m1 typ = dict_get m2 typ
  | _, _ => False
  end.
Proof.
  intros Hu Hp. unfold get_db_statistics. rewrite Hu, !select_events_rows_of.
  assert (Htimes : forall typ,
             times_of_type typ (order_by_timestamp (rows_of t1 o r))
             = times_of_type typ (order_by_timestamp (rows_of t2 o r))).
  { intros typ. apply ascending_unique; try apply times_of_type_sorted.
    apply times_of_type_Permutation.
    rewrite !order_by_timestamp_Permutation. exact Hp. }
  destruct (order_by_timestamp (rows_of t1 o r)) as [|e1 es1] eqn:E1.
  - apply order_by_timestamp_nil in E1. rewrite E1 in Hp.
    apply Permutation_nil in Hp. rewrite Hp. cbn. exact E1.
  - destruct (order_by_timestamp (rows_of t2 o r)) as [|e2 es2] eqn:E2.
    + apply order_by_timestamp_nil in E2. rewrite E2 in Hp.
      symmetry in Hp. apply Permutation_nil in Hp.
      rewrite Hp in E1. discriminate.
    + destruct (calculate_average_time_unit u (e1 :: es1))
        as (m1 & -> & Hget1); [discriminate|].
      destruct (calculate_average_time_unit u (e2 :: es2))
        as (m2 & -> & Hget2); [discriminate|].
      intros typ. now rewrite Hget1, Hget2, Htimes.
Qed.

Lemma X4_statistics_ignore_insertion_order_witness :
  let t1 := mkTable [pushed 1 (seconds 60); pushed 2 (seconds 0)] 3 in
  let t2 := mkTable [mkRow 3 "alice" "proj" (seconds 7) "ForkEvent";
                     pushed 2 (seconds 0); pushed 1 (seconds 60)] 4 in
  delta one_repository = unit_name minute
  /\ Permutation (rows_of t1 "octocat" "hello") (rows_of t2 "octocat" "hello")
  /\ match get_db_statistics one_repository (Some t1) "octocat" "hello",
           get_db_statistics one_repository (Some t2) "octocat" "hello" with
     | Return None, Return None => rows_of t1 "octocat" "hello" = []
     | Return (Some m1), Return (Some m2) =>
         forall typ, dict_get m1 typ = dict_get m2 typ
     | _, _ => False
     end.
Proof.
  intros t1 t2.
  assert (Hp : Permutation (rows_of t1 "octocat" "hello")
                           (rows_of t2 "octocat" "hello"))
    by (cbn; apply perm_swap).
  split; [reflexivity|]. split; [exact Hp|].
  exact (X4_statistics_ignore_insertion_order minute one_repository t1 t2
           "octocat" "hello" eq_refl Hp).
Defined.

(** ** [calculate_average_time] under an unknown unit *)

Lemma date_transform_to_unknown d delta :
  unknown_delta delta -> date_transform_to d delta = Raise InvalidDelta.
Proof.
  intros (Hs & Hm & Hh). unfold date_transform_to.
  destruct (String.eqb_spec delta "second"); [contradiction|].
  destruct (String.eqb_spec delta "minute"); [contradiction|].
  destruct (String.eqb_spec delta "hour"); [contradiction|reflexivity].
Qed.

Lemma average_of_unknown delta times :
  unknown_delta delta ->
  average_of delta times =
  if (List.length times <? 2)%nat then Return (PyInt 0) else Raise InvalidDelta.
Proof.
  intros Hd. unfold average_of.
  destruct (Nat.ltb_spec (List.length times) 2) as [|Hn]; [reflexivity|].
  rewrite deltas_of_spec.
  destruct times as [|t0 [|t1 rest]]; cbn [List.length] in Hn; try lia.
  change (spec_deltas (t0 :: t1 :: rest))
    with ((t1 - t0) :: spec_deltas (t1 :: rest)).
  cbn [map_outcome]. now rewrite (date_transform_to_unknown _ _ Hd).
Qed.

Lemma averages_unknown delta items :
  unknown_delta delta ->
  forall result,
    (Exists (fun it => (2 <= List.length (snd it))%nat) items ->
     averages delta items result = Raise InvalidDelta)
    /\ (Forall (fun it => (List.length (snd it) < 2)%nat) items ->
        averages delta items result
        = Return (fold_left
                    (fun res it => dict_set res (fst it) (PyInt 0))
                    items result)).
Proof.
  intros Hd. induction items as [|[typ times] items IH]; intros result.
  - split; [intros H; inversion H|reflexivity].
  - cbn [averages fold_left fst snd]. rewrite (average_of_unknown _ _ Hd).
    destruct (Nat.ltb_spec (List.length times) 2) as [Hlt|Hge]; cbn [obind].
    + split.
      * intros H. apply (IH _). inversion H as [? ? Hh|]; subst;
          [cbn in Hh; lia|assumption].
      * intros H. apply (IH _). now inversion H.
    + split; [reflexivity|].
      intros H. inversion H as [|? ? Hh]; subst. cbn in Hh. lia.
Qed.

Lemma dict_get_In {V} (d : dict V) k v : dict_get d k = Some v -> In (k, v) d.
Proof.
  induction d as [|[k0 v0] d IH]; cbn; [discriminate|].
  destruct (String.eqb_spec k0 k) as [->|]; [|auto].
  intros H. inversion H. now left.
Qed.

Lemma In_dict_get {V} (d : dict V) k v :
  NoDup (dict_keys d) -> In (k, v) d -> dict_get d k = Some v.
Proof.
  induction d as [|[k0 v0] d IH]; intros Hnd Hin; [destruct Hin|].
  inversion Hnd as [|? ? Hnotin Hnd']; subst. cbn.
  destruct Hin as [Heq|Hin].
  - inversion Heq; subst. now rewrite String.eqb_refl.
  - destruct (String.eqb_spec k0 k) as [->|]; [|auto].
    exfalso. apply Hnotin. apply in_map_iff. now exists (k, v).
Qed.

Lemma times_of_type_nonempty typ events :
  In typ (map row_type events) <-> times_of_type typ events <> [].
Proof.
  unfold times_of_type. split.
  - intros Hin Hnil. apply in_map_iff in Hin. destruct Hin as (e & Hty & He).
    assert (Hin : In (event_timestamp e)
                     (map event_timestamp
                        (filter (fun ev => String.eqb (row_type ev) typ)
                                events))).
    { apply in_map, filter_In. split; [exact He|].
      rewrite Hty. apply String.eqb_refl. }
    rewrite Hnil in Hin. destruct Hin.
  - intros Hne.
    destruct (filter (fun ev => String.eqb (row_type ev) typ) events)
      as [|e es] eqn:Hf; [now cbn in Hne|].
    assert (Hin : In e (filter (fun ev => String.eqb (row_type ev) typ) events))
      by (rewrite Hf; now left).
    apply filter_In in Hin. destruct Hin as [Hin Heq].
    apply String.eqb_eq in Heq. apply in_map_iff. now exists e.
Qed.

Lemma calculate_average_time_unknown (delta : string) (events : list Row) :
  unknown_delta delta ->
  ((exists typ, (2 <= List.length (times_of_type typ events))%nat) ->
   calculate_average_time delta events = Raise InvalidDelta)
  /\ (events <> [] ->
      (forall typ, (List.length (times_of_type typ events) < 2)%nat) ->
      exists result,
        calculate_average_time delta events = Return (Some result)
        /\ forall typ,
             dict_get result typ
             = if in_dec string_dec typ (map row_type events)
               then Some (PyInt 0) else None).
Proof.
  intros Hd.
  pose proof (averages_unknown delta (group_times (type_and_date events)) Hd [])
    as [Hraise Hret].
  split.
  - intros (typ & Hn).
    destruct events as [|e events]; [cbn in Hn; lia|].
    unfold calculate_average_time. rewrite Hraise; [reflexivity|].
    apply Exists_exists. exists (typ, times_of_type typ (e :: events)).
    split; [|exact Hn].
    apply dict_get_In. rewrite group_times_get.
    destruct (times_of_type typ (e :: events)); [cbn in Hn; lia|reflexivity].
  - intros Hne Hall.
    destruct events as [|e events]; [congruence|].
    unfold calculate_average_time. rewrite Hret.
    + cbn [obind]. eexists. split; [reflexivity|]. intros typ.
      rewrite (fold_set_get (fun _ => PyInt 0)) by apply group_times_NoDup.
      rewrite group_times_get. cbn [dict_get].
      destruct (in_dec string_dec typ (map row_type (e :: events))) as [Hin|Hnin].
      * apply times_of_type_nonempty in Hin.
        destruct (times_of_type typ (e :: events)); [congruence|reflexivity].
      * destruct (times_of_type typ (e :: events)) eqn:Hts; [reflexivity|].
        exfalso. apply Hnin, times_of_type_nonempty. now rewrite Hts.
    + apply Forall_forall. intros [typ times] Hin. cbn [snd].
      apply (In_dict_get _ _ _ (group_times_NoDup (e :: events))) in Hin.
      rewrite group_times_get in Hin.
      destruct (times_of_type typ (e :: events)) eqn:Hts; [discriminate|].
      inversion Hin; subst times. rewrite <- Hts. apply Hall.
Qed.

(** X5.  With a [delta] other than the three units the aggregator raises as
    soon as one type has two events, and only then: if every type has a
    single event nothing is converted, the call returns and every type of
    the input maps to the int 0. *)
Theorem X5_unknown_delta_raises_only_with_two_events
    (delta : string) (events : list Row) :
  unknown_delta delta ->
  ((exists typ, (2 <= List.length (times_of_type typ events))%nat) ->
   calculate_average_time delta events = Raise InvalidDelta)
  /\ (events <> [] ->
      (forall typ, (List.length (times_of_type typ events) < 2)%nat) ->
      exists result,
        calculate_average_time delta events = Return (Some result)
        /\ forall typ,
             dict_get result typ
             = if in_dec string_dec typ (map row_type events)
               then Some (PyInt 0) else None).
Proof. apply calculate_average_time_unknown. Qed.

Lemma X5_unknown_delta_raises_only_with_two_events_witness :
  unknown_delta "minutes"
  /\ calculate_average_time "minutes" mixed_events = Raise InvalidDelta.
Proof.
  assert (Hd : unknown_delta "minutes") by (repeat split; discriminate).
  split; [exact Hd|].
  apply (proj1 (X5_unknown_delta_raises_only_with_two_events
                  "minutes" mixed_events Hd)).
  exists "PushEvent". cbn. lia.
Defined.

(** X6.  Under one of the three units the keys of the result are the event
    types of the input, each of them once; the type of a single event is
    mapped to the int 0 and every other to a float. *)
Theorem X6_result_has_one_key_per_type
    (u : TimeUnit) (events : list Row) (result : dict pyval) :
  calculate_average_time (unit_name u) events = Return (Some result) ->
  NoDup (dict_keys result)
  /\ (forall typ, In typ (dict_keys result) <-> In typ (map row_type events))
  /\ (forall typ v, dict_get result typ = Some v ->
        match v with
        | PyInt n => n = 0 /\ List.length (times_of_type typ events) = 1%nat
        | PyFloat _ => (2 <= List.length (times_of_type typ events))%nat
        end).
Proof.
  intros Hres. split; [exact (calculate_average_time_NoDup u events result Hres)|].
  destruct events as [|e events]; [discriminate|].
  destruct (calculate_average_time_unit u (e :: events))
    as (res & Hres' & Hget); [discriminate|].
  rewrite Hres in Hres'. inversion Hres'; subst res. split.
  - intros typ. rewrite times_of_type_nonempty. specialize (Hget typ). split.
    + intros Hin Hnil. rewrite Hnil in Hget.
      apply in_map_iff in Hin. destruct Hin as ([k v] & <- & Hin).
      apply (In_dict_get _ _ _ (calculate_average_time_NoDup _ _ _ Hres)) in Hin.
      cbn [fst] in Hget. congruence.
    + intros Hne.
      destruct (times_of_type typ (e :: events)); [congruence|].
      eapply dict_get_In_keys. exact Hget.
  - intros typ v Hv. rewrite Hget in Hv.
    destruct (times_of_type typ (e :: events)) as [|t0 ts] eqn:Hts;
      [discriminate|].
    inversion Hv; subst v. unfold stored_average.
    destruct (Nat.ltb_spec (List.length (t0 :: ts)) 2) as [Hlt|Hge].
    + cbn [List.length] in *. split; [reflexivity|lia].
    + exact Hge.
Qed.

Lemma X6_result_has_one_key_per_type_witness :
  let result := [("PushEvent", PyFloat Float64.two); ("ForkEvent", PyInt 0)] in
  calculate_average_time (unit_name hour) mixed_events = Return (Some result)
  /\ NoDup (dict_keys result)
  /\ (forall typ, In typ (dict_keys result)
                  <-> In typ (map row_type mixed_events)).
Proof.
  intros result.
  assert (H : calculate_average_time (unit_name hour) mixed_events
              = Return (Some result)) by reflexivity.
  split; [exact H|].
  destruct (X6_result_has_one_key_per_type hour mixed_events result H)
    as (H1 & H2 & _).
  split; [exact H1|exact H2].
Defined.

(** ** [get_api_statistics] *)

Lemma store_statistics_keys result r stats k :
  In k (dict_keys (store_statistics result r stats))
  <-> (stats <> [] /\ k = r) \/ In k (dict_keys result).
Proof.
  unfold store_statistics. revert result.
  induction stats as [|item stats IH]; intros result.
  - cbn. split; [auto|]. intros [[H _]|H]; [congruence|exact H].
  - cbn [fold_left]. rewrite IH.
    split.
    + intros [[_ ->]|Hin]; [left; split; [discriminate|reflexivity]|].
      apply (proj1 (dict_keys_set_In _ _ _ _)) in Hin.
      destruct Hin as [->|Hin]; [left; split; [discriminate|reflexivity]|now right].
    + intros [[_ ->]|Hin].
      * right. apply dict_keys_set_In. now left.
      * right. apply dict_keys_set_In. now right.
Qed.

Lemma store_statistics_NoDup result r stats :
  NoDup (dict_keys result) ->
  NoDup (dict_keys (store_statistics result r stats)).
Proof.
  unfold store_statistics. revert result.
  induction stats as [|item stats IH]; intros result Hnd; [exact Hnd|].
  cbn [fold_left]. apply IH. now apply dict_keys_set_NoDup.
Qed.

Lemma render_keys result r statistics k :
  In k (dict_keys (render result r statistics))
  <-> k = r \/ In k (dict_keys result).
Proof.
  unfold render. destruct statistics as [[|item stats]|].
  - apply dict_keys_set_In.
  - rewrite store_statistics_keys. split.
    + intros [[_ ->]|H]; auto.
    + intros [->|H]; [left; split; [discriminate|reflexivity]|now right].
  - apply dict_keys_set_In.
Qed.

Lemma render_NoDup result r statistics :
  NoDup (dict_keys result) -> NoDup (dict_keys (render result r statistics)).
Proof.
  intros Hnd. unfold render. destruct statistics as [[|item stats]|].
  - now apply dict_keys_set_NoDup.
  - now apply store_statistics_NoDup.
  - now apply dict_keys_set_NoDup.
Qed.

Lemma render_all_keys u t repos : forall result k,
  In k (dict_keys (render_all u t repos result))
  <-> In k (map repo repos) \/ In k (dict_keys result).
Proof.
  induction repos as [|r repos IH]; intros result k.
  - cbn. tauto.
  - rewrite render_all_cons, IH, render_keys. cbn [map In].
    split; intros H; intuition auto.
Qed.

Lemma render_all_NoDup u t repos : forall result,
  NoDup (dict_keys result) -> NoDup (dict_keys (render_all u t repos result)).
Proof.
  induction repos as [|r repos IH]; intros result Hnd; [exact Hnd|].
  rewrite render_all_cons. apply IH. now apply render_NoDup.
Qed.

(** X7.  Under one of the three units the endpoint answers with one entry
    per repository name of the configuration and no other entry, so with at
    most as many entries as there are tracked repositories. *)
Theorem X7_endpoint_has_one_entry_per_repository_name
    (u : TimeUnit) (cfg : Config) (t : Table) :
  delta cfg = unit_name u ->
  exists result,
    get_api_statistics cfg (Some t) = Return result
    /\ NoDup (dict_keys result)
    /\ (forall k, In k (dict_keys result)
                  <-> In k (map repo (repositories cfg)))
    /\ (List.length result <= List.length (repositories cfg))%nat.
Proof.
  intros Hu. eexists. split; [apply (get_api_statistics_unit u), Hu|].
  assert (Hnd : NoDup (dict_keys (render_all u t (repositories cfg) [])))
    by (apply render_all_NoDup; constructor).
  assert (Hkeys : forall k,
             In k (dict_keys (render_all u t (repositories cfg) []))
             <-> In k (map repo (repositories cfg))).
  { intros k. rewrite render_all_keys. cbn. tauto. }
  split; [exact Hnd|]. split; [exact Hkeys|].
  rewrite <- (length_map fst), <- (length_map repo).
  apply NoDup_incl_length; [exact Hnd|].
  intros k Hk. now apply Hkeys.
Qed.

Lemma X7_endpoint_has_one_entry_per_repository_name_witness :
  delta two_owners = unit_name minute
  /\ exists result,
       get_api_statistics two_owners (Some rows_of_bob) = Return result
       /\ NoDup (dict_keys result)
       /\ (forall k, In k (dict_keys result)
                     <-> In k (map repo (repositories two_owners)))
       /\ (List.length result <= List.length (repositories two_owners))%nat.
Proof.
  split; [reflexivity|].
  exact (X7_endpoint_has_one_entry_per_repository_name
           minute two_owners rows_of_bob eq_refl).
Defined.

(** X8.  A repository whose name no other tracked repository has gets its
    own statistics: the entry under its name maps each type to what
    [get_db_statistics] returns for it, and is empty when that is "no
    statistics". *)
Theorem X8_unique_name_gets_own_statistics
    (u : TimeUnit) (cfg : Config) (t : Table)
    (pre post : list Repository) (r : Repository) :
  delta cfg = unit_name u ->
  repositories cfg = pre ++ r :: post ->
  (forall r', In r' (pre ++ post) -> repo r' <> repo r) ->
  exists result statistics sub,
    get_api_statistics cfg (Some t) = Return result
    /\ get_db_statistics cfg (Some t) (owner r) (repo r) = Return statistics
    /\ dict_get result (repo r) = Some sub
    /\ forall typ,
         dict_get sub typ
         = match statistics with
           | Some stats => dict_get stats typ
           | None => None
           end.
Proof.
  intros Hu Hrepos Hother.
  exists (render_all u t (repositories cfg) []), (statistics_of u t r).
  assert (Hpre : dict_get (render_all u t pre []) (repo r) = None).
  { rewrite render_all_other; [reflexivity|].
    intros r' Hin. apply Hother, in_or_app. now left. }
  assert (Hpost : forall acc,
             dict_get (render_all u t post acc) (repo r)
             = dict_get acc (repo r)).
  { intros acc. apply render_all_other.
    intros r' Hin. apply Hother, in_or_app. now right. }
  pose proof (get_api_statistics_unit u cfg t Hu) as Hapi.
  pose proof (get_db_statistics_unit u cfg t r Hu) as Hdb.
  assert (Hentry : dict_get (render_all u t (repositories cfg) []) (repo r)
                   = dict_get (render (render_all u t pre []) (repo r)
                                      (statistics_of u t r)) (repo r))
    by (rewrite Hrepos, render_all_app, render_all_cons; apply Hpost).
  destruct (statistics_of u t r) as [[|item stats]|] eqn:Hst.
  - exists [].
    split; [exact Hapi|]. split; [exact Hdb|]. rewrite Hentry.
    split; [apply dict_get_set_same|reflexivity].
  - eexists.
    split; [exact Hapi|]. split; [exact Hdb|]. rewrite Hentry.
    split; [apply store_statistics_same|].
    intros typ.
    assert (Hnd : NoDup (dict_keys (item :: stats))).
    { apply (calculate_average_time_NoDup u
               (select_events t (owner r) (repo r))).
      unfold statistics_of in Hst.
      destruct (calculate_average_time (unit_name u)
                  (select_events t (owner r) (repo r))); congruence. }
    rewrite (update_get _ typ _ Hnd).
    destruct (dict_get (item :: stats) typ); [reflexivity|].
    unfold dict_get_default, dict in *. now rewrite Hpre.
  - exists [].
    split; [exact Hapi|]. split; [exact Hdb|]. rewrite Hentry.
    split; [apply dict_get_set_same|reflexivity].
Qed.

Lemma X8_unique_name_gets_own_statistics_witness :
  let cfg := mkConfig [mkRepository "alice" "proj";
                       mkRepository "octocat" "hello"] "hour" in
  let t := mkTable mixed_events 5 in
  let r := mkRepository "octocat" "hello" in
  exists result statistics sub,
    get_api_statistics cfg (Some t) = Return result
    /\ get_db_statistics cfg (Some t) (owner r) (repo r) = Return statistics
    /\ dict_get result (repo r) = Some sub
    /\ forall typ,
         dict_get sub typ
         = match statistics with
           | Some stats => dict_get stats typ
           | None => None
           end.
Proof.
  intros cfg t r.
  apply (X8_unique_name_gets_own_statistics hour cfg t
           [mkRepository "alice" "proj"] [] r);
    [reflexivity|reflexivity|].
  intros r' [<-|[]]. discriminate.
Defined.

Lemma averages_unknown_cases delta items :
  unknown_delta delta ->
  forall result,
    averages delta items result = Raise InvalidDelta
    \/ exists res, averages delta items result = Return res.
Proof.
  intros Hd. induction items as [|[typ times] items IH]; intros result.
  - right. now exists result.
  - cbn [averages]. rewrite (average_of_unknown _ _ Hd).
    destruct (List.length times <? 2)%nat; cbn [obind]; [apply IH|now left].
Qed.

Lemma calculate_average_time_unknown_cases delta events :
  unknown_delta delta ->
  calculate_average_time delta events = Raise InvalidDelta
  \/ exists statistics, calculate_average_time delta events = Return statistics.
Proof.
  intros Hd. destruct events as [|e events]; [right; now exists None|].
  unfold calculate_average_time.
  destruct (averages_unknown_cases delta
              (group_times (type_and_date (e :: events))) Hd [])
    as [H|(res & H)]; rewrite H; [now left|right].
  exists (Some res). reflexivity.
Qed.

Lemma statistics_loop_cons cfg db r repos result :
  statistics_loop cfg db (r :: repos) result =
  match get_db_statistics cfg db (owner r) (repo r) with
  | Raise e => Raise e
  | Return statistics =>
      statistics_loop cfg db repos (render result (repo r) statistics)
  end.
Proof.
  cbn [statistics_loop]. unfold obind, render.
  destruct (get_db_statistics cfg db (owner r) (repo r))
    as [[[|item stats]|]|ex]; reflexivity.
Qed.

Lemma statistics_loop_unknown cfg t repos :
  unknown_delta (delta cfg) ->
  forall result,
    (Exists (fun r => exists typ,
                 (2 <= List.length
                         (times_of_type typ
                            (select_events t (owner r) (repo r))))%nat)
            repos ->
     statistics_loop cfg (Some t) repos result = Raise InvalidDelta)
    /\ (Forall (fun r => forall typ,
                   (List.length
                      (times_of_type typ
                         (select_events t (owner r) (repo r))) < 2)%nat)
               repos ->
        exists res, statistics_loop cfg (Some t) repos result = Return res).
Proof.
  intros Hd. induction repos as [|r repos IH]; intros result.
  - split; [intros H; inversion H|]. intros _. now exists result.
  - rewrite statistics_loop_cons. unfold get_db_statistics.
    split.
    + intros H.
      destruct (calculate_average_time_unknown_cases (delta cfg)
                  (select_events t (owner r) (repo r)) Hd)
        as [->|(st & Hst)]; [reflexivity|].
      rewrite Hst. apply (IH _).
      inversion H as [? ? Hh|]; subst; [|assumption].
      rewrite (proj1 (calculate_average_time_unknown _ _ Hd) Hh) in Hst.
      discriminate.
    + intros H. inversion H as [|? ? Hh Ht]; subst.
      destruct (select_events t (owner r) (repo r)) as [|e es] eqn:Hsel.
      * cbn [calculate_average_time]. now apply (IH _).
      * destruct (proj2 (calculate_average_time_unknown (delta cfg)
                           (e :: es) Hd))
          as (res & -> & _); [discriminate|exact Hh|].
        now apply (IH _).
Qed.

(** X9.  With a [delta] other than the three units the endpoint raises as
    soon as some tracked repository has two stored events of one type, and
    answers otherwise: the configuration error shows only once the data
    calls for a conversion. *)
Theorem X9_endpoint_with_unknown_delta (cfg : Config) (t : Table) :
  unknown_delta (delta cfg) ->
  ((exists r typ,
       In r (repositories cfg)
       /\ (2 <= List.length
                  (times_of_type typ
                     (select_events t (owner r) (repo r))))%nat) ->
   get_api_statistics cfg (Some t) = Raise InvalidDelta)
  /\ ((forall r typ,
         In r (repositories cfg) ->
         (List.length
            (times_of_type typ (select_events t (owner r) (repo r))) < 2)%nat) ->
      exists result, get_api_statistics cfg (Some t) = Return result).
Proof.
  intros Hd. unfold get_api_statistics.
  destruct (statistics_loop_unknown cfg t (repositories cfg) Hd []) as [H1 H2].
  split.
  - intros (r & typ & Hin & Hn). apply H1, Exists_exists. eauto.
  - intros Hall. apply H2, Forall_forall. intros r Hin typ. now apply Hall.
Qed.

Lemma X9_endpoint_with_unknown_delta_witness :
  let cfg := mkConfig [mkRepository "alice" "proj";
                       mkRepository "bob" "proj"] "minutes" in
  unknown_delta (delta cfg)
  /\ get_api_statistics cfg (Some rows_of_bob) = Raise InvalidDelta.
Proof.
  intros cfg.
  assert (Hd : unknown_delta (delta cfg)) by (repeat split; discriminate).
  split; [exact Hd|].
  apply (proj1 (X9_endpoint_with_unknown_delta cfg rows_of_bob Hd)).
  exists (mkRepository "bob" "proj"), "PushEvent".
  split; [right; left; reflexivity|cbn; lia].
Defined.

(** ** What an update cycle stores *)

Lemma ingested_later w cfg lo hi hi' row :
  (hi <= hi')%nat -> ingested w cfg lo hi row -> ingested w cfg lo hi' row.
Proof.
  intros Hle (r & events & e & k & H1 & H2 & H3 & H4 & H5 & H6 & H7 & H8 & H9).
  exists r, events, e, k. repeat split; try assumption; lia.
Qed.

(** The rows after one event are rows from before, or the row of the event,
    which then passed the freshness test at the reading taken for it. *)
Lemma process_event_rows capacity w repository e f f' o :
  process_event capacity w repository e f = (f', o) ->
  (clock_reads f <= clock_reads f')%nat
  /\ forall t', database f' = Some t' ->
       exists t, database f = Some t
         /\ forall row, In row (rows t') ->
              In row (rows t)
              \/ (created_at e = Some (event_timestamp row)
                  /\ event_type e = Some (row_type row)
                  /\ row_owner row = owner repository
                  /\ row_repo row = repo repository
                  /\ clock w (clock_reads f) - event_timestamp row
                     < 8 * microseconds_per_day
                  /\ (clock_reads f < clock_reads f')%nat).
Proof.
  rewrite process_event_eq.
  destruct (created_at e) as [ts|] eqn:Hts.
  2:{ intros H. inversion H; subst. split; [lia|].
      intros t' Hdb. exists t'. auto. }
  destruct (Z.gtb_spec (timedelta_days (clock w (clock_reads f) - ts)) 7)
    as [Hold|Hfresh].
  { intros H. inversion H; subst. cbn [tick clock_reads database].
    split; [lia|]. intros t' Hdb. exists t'. auto. }
  apply timedelta_days_le_7 in Hfresh.
  assert (Hnew : forall t0 ty row,
             event_type e = Some ty ->
             In row (rows (insert_row t0 (owner repository) (repo repository)
                                      ts ty)) ->
             In row (rows t0)
             \/ (Some ts = Some (event_timestamp row)
                 /\ event_type e = Some (row_type row)
                 /\ row_owner row = owner repository
                 /\ row_repo row = repo repository
                 /\ clock w (clock_reads f) - event_timestamp row
                    < 8 * microseconds_per_day
                 /\ (clock_reads f < S (clock_reads f))%nat)).
  { intros t0 ty row Hty Hin. cbn [insert_row rows] in Hin.
    apply in_app_or in Hin. destruct Hin as [Hin|[<-|[]]]; [now left|].
    right. cbn. repeat split; try assumption; lia. }
  destruct (current_count f >=? capacity).
  { intros H. inversion H; subst. cbn [tick clock_reads database].
    split; [lia|]. intros t' Hdb. exists t'. auto. }
  destruct (event_type e) as [ty|] eqn:Hty.
  - destruct (database f) as [t|] eqn:Hdb; intros H; inversion H; subst;
      cbn [clock_reads database]; (split; [lia|]); [|discriminate].
    intros t' Ht'; inversion Ht'; subst. exists t. split; [reflexivity|].
    intros row Hin. destruct (Hnew _ _ _ eq_refl Hin); auto.
  - intros H. inversion H; subst. cbn [clock_reads database].
    split; [lia|]. intros t' Ht'. exists t'. auto.
Qed.

Lemma events_loop_ingested capacity w cfg lo repository all events :
  In repository (repositories cfg) ->
  github w (owner repository) (repo repository) = JsonBody all ->
  incl events all ->
  forall f f' o,
    (lo <= clock_reads f)%nat ->
    (forall t, database f = Some t ->
               Forall (ingested w cfg lo (clock_reads f)) (rows t)) ->
    for_each events (process_event capacity w repository) f = (f', o) ->
    (clock_reads f <= clock_reads f')%nat
    /\ forall t', database f' = Some t' ->
                  Forall (ingested w cfg lo (clock_reads f')) (rows t').
Proof.
  intros Hrepo Hfeed. induction events as [|e events IH];
    intros Hincl f f' o Hlo Hinv Hloop.
  - inversion Hloop; subst. split; [lia|exact Hinv].
  - rewrite for_each_cons in Hloop.
    destruct (process_event capacity w repository e f) as [f1 o1] eqn:Hstep.
    destruct (process_event_rows _ _ _ _ _ _ _ Hstep) as [Hclock Hrows].
    assert (Hinv1 : forall t, database f1 = Some t ->
                      Forall (ingested w cfg lo (clock_reads f1)) (rows t)).
    { intros t1 Hdb1. destruct (Hrows t1 Hdb1) as (t & Hdb & Hfrom).
      apply Forall_forall. intros row Hin.
      destruct (Hfrom row Hin) as [Hold|(H1 & H2 & H3 & H4 & H5 & H6)].
      - apply (ingested_later w cfg lo (clock_reads f)); [exact Hclock|].
        specialize (Hinv t Hdb). rewrite Forall_forall in Hinv. now apply Hinv.
      - exists repository, all, e, (clock_reads f).
        repeat split; try assumption; try lia.
        apply Hincl. now left. }
    destruct o1 as [[]|ex].
    + destruct (IH (fun x Hx => Hincl x (or_intror Hx)) f1 f' o
                   ltac:(lia) Hinv1 Hloop) as [Hc Hr].
      split; [lia|exact Hr].
    + inversion Hloop; subst. split; [exact Hclock|exact Hinv1].
Qed.

Lemma repositories_loop_ingested capacity w cfg lo repos :
  incl repos (repositories cfg) ->
  forall f f' o,
    (lo <= clock_reads f)%nat ->
    (forall t, database f = Some t ->
               Forall (ingested w cfg lo (clock_reads f)) (rows t)) ->
    for_each repos (process_repository capacity w) f = (f', o) ->
    (clock_reads f <= clock_reads f')%nat
    /\ forall t', database f' = Some t' ->
                  Forall (ingested w cfg lo (clock_reads f')) (rows t').
Proof.
  induction repos as [|r repos IH]; intros Hincl f f' o Hlo Hinv Hloop.
  - inversion Hloop; subst. split; [lia|exact Hinv].
  - rewrite for_each_cons, process_repository_eq in Hloop.
    destruct (get_github_events w (owner r) (repo r)) as [events|ex] eqn:Hfetch.
    + destruct (for_each events (process_event capacity w r) f)
        as [f1 o1] eqn:Hevents.
      destruct (events_loop_ingested capacity w cfg lo r events events
                  (Hincl r (or_introl eq_refl))
                  (get_github_events_Return _ _ _ _ Hfetch)
                  (incl_refl _) f f1 o1 Hlo Hinv Hevents) as [Hc1 Hr1].
      destruct o1 as [[]|ex1].
      * destruct (IH (fun x Hx => Hincl x (or_intror Hx)) f1 f' o
                     ltac:(lia) Hr1 Hloop) as [Hc Hr].
        split; [lia|exact Hr].
      * inversion Hloop; subst. split; [exact Hc1|exact Hr1].
    + inversion Hloop; subst. split; [lia|exact Hinv].
Qed.

(** X10.  Whether a cycle succeeds or is cut short by an exception, every
    row it leaves in the table is the content of an event found in the feed
    of a tracked repository, stored under the owner and name of that
    repository, and was less than eight days old at the clock reading of
    that cycle taken for it. *)
Theorem X10_cycle_stores_only_fetched_fresh_events
    (w : World) (cfg : Config) (f : Frame) (t' : Table) :
  database (fst (update_data w cfg f)) = Some t' ->
  Forall (ingested w cfg (clock_reads f)
                   (clock_reads (fst (update_data w cfg f))))
         (rows t').
Proof.
  unfold update_data. rewrite update_data_with_eq.
  destruct (database f) as [t|] eqn:Hdb.
  2:{ cbn [fst]. rewrite Hdb. discriminate. }
  destruct (for_each (repositories cfg) (process_repository 500 w)
                     (reset_frame f)) as [f1 o] eqn:Hloop.
  destruct (repositories_loop_ingested 500 w cfg (clock_reads f)
              (repositories cfg) (incl_refl _) (reset_frame f) f1 o)
    as [_ Hrows]; [cbn; lia| |exact Hloop|].
  { intros t0 Ht0. inversion Ht0; subst. constructor. }
  destruct o as [u|ex]; cbn [fst]; apply Hrows.
Qed.

Lemma X10_cycle_stores_only_fetched_fresh_events_witness :
  let w := mkWorld (fun _ _ => JsonBody [pushed_at (seconds 1);
                                         mkEvent (Some (seconds 2)) None])
                   (fun _ => seconds 5) in
  let t' := mkTable [pushed 1 (seconds 1)] 2 in
  database (fst (update_data w one_repository empty_frame)) = Some t'
  /\ snd (update_data w one_repository empty_frame) = Raise KeyError
  /\ Forall (ingested w one_repository 0 2) (rows t').
Proof.
  intros w t'.
  assert (H : database (fst (update_data w one_repository empty_frame))
              = Some t') by reflexivity.
  split; [exact H|]. split; [reflexivity|].
  exact (X10_cycle_stores_only_fetched_fresh_events
           w one_repository empty_frame t' H).
Defined.

(** ** Which events a cycle keeps *)

Lemma records_stored qs : records (fold_left store_record qs empty_table) = qs.
Proof. now rewrite records_store. Qed.

(** The end of a cycle on an existing table: the table is rebuilt from the
    first [n] accepted events, and the outcome tells how far the cycle
    came. *)
Lemma update_data_prefix w cfg f t0 :
  database f = Some t0 ->
  exists n,
    database (fst (update_data w cfg f))
    = Some (fold_left store_record
              (firstn n (accepted_events w (clock_reads f) (repositories cfg)))
              empty_table)
    /\ (n <= List.length
               (accepted_events w (clock_reads f) (repositories cfg)))%nat
    /\ (n <= 500)%nat
    /\ (snd (update_data w cfg f) = Raise SyntaxError -> n = 500%nat)
    /\ (snd (update_data w cfg f) = Raise KeyError -> (n < 500)%nat)
    /\ (forall u, snd (update_data w cfg f) = Return u ->
        n = List.length
              (accepted_events w (clock_reads f) (repositories cfg))).
Proof.
  intros Hdb. unfold update_data. rewrite update_data_with_eq, Hdb.
  destruct (for_each (repositories cfg) (process_repository 500 w)
                     (reset_frame f)) as [f1 o] eqn:Hloop.
  destruct (repositories_loop_prefix 500 w (repositories cfg)
              (reset_frame f) f1 o empty_table eq_refl eq_refl Hloop)
    as (n & Hdb' & Hn & Hsyn & Hkey).
  assert (Hsize : (n <= 500)%nat).
  { destruct (repositories_loop_inv 500 w (repositories cfg) (reset_frame f))
      as [_ Hend]; [lia|apply reset_frame_inv; lia|].
    specialize (Hend f1 o Hloop).
    rewrite (store_size_Some _ _ Hdb'), <- records_length, records_stored,
      length_firstn in Hend.
    lia. }
  exists n.
  assert (Hfst : database f1
                 = Some (fold_left store_record
                           (firstn n (accepted_events w (clock_reads f)
                                        (repositories cfg))) empty_table))
    by exact Hdb'.
  destruct o as [u|ex]; cbn [fst snd].
  - split; [exact Hfst|]. split; [exact Hn|]. split; [exact Hsize|].
    split; [discriminate|]. split; [discriminate|]. intros _ _.
    pose proof (repositories_loop_store 500 w (repositories cfg)
                  (reset_frame f) f1 u empty_table eq_refl eq_refl Hloop)
      as Hall.
    rewrite Hdb' in Hall. inversion Hall as [Heq].
    apply (f_equal records) in Heq. rewrite !records_stored in Heq.
    apply (f_equal (@List.length _)) in Heq. rewrite length_firstn in Heq.
    change (clock_reads (reset_frame f)) with (clock_reads f) in *. lia.
  - split; [exact Hfst|]. split; [exact Hn|]. split; [exact Hsize|].
    split; [|split; [|discriminate]]; intros Ho; inversion Ho; subst ex.
    + specialize (Hsyn eq_refl). cbn in Hsyn. lia.
    + specialize (Hkey eq_refl). cbn in Hkey. lia.
Qed.

(** X11.  However a cycle ends, the table then holds the first accepted
    events of that cycle, in the order they were fetched, and nothing else:
    a cycle neither reorders nor drops an event it has stored, and it stores
    none after the point where it stops. *)
Theorem X11_store_is_prefix_of_accepted_events
    (w : World) (cfg : Config) (f : Frame) (t' : Table) :
  database (fst (update_data w cfg f)) = Some t' ->
  exists n,
    (n <= 500)%nat
    /\ records t'
       = firstn n (accepted_events w (clock_reads f) (repositories cfg)).
Proof.
  intros Hfinal.
  destruct (database f) as [t0|] eqn:Hdb.
  2:{ unfold update_data in Hfinal. rewrite update_data_with_eq, Hdb in Hfinal.
      cbn [fst] in Hfinal. congruence. }
  destruct (update_data_prefix w cfg f t0 Hdb) as (n & Hdb' & _ & Hn & _).
  rewrite Hdb' in Hfinal. inversion Hfinal; subst t'.
  exists n. split; [exact Hn|apply records_stored].
Qed.

Lemma X11_store_is_prefix_of_accepted_events_witness :
  let w := mkWorld (fun _ _ => JsonBody [pushed_at (seconds 1);
                                         mkEvent (Some (seconds 2)) None;
                                         pushed_at (seconds 3)])
                   (fun _ => seconds 5) in
  let t' := mkTable [pushed 1 (seconds 1)] 2 in
  database (fst (update_data w one_repository empty_frame)) = Some t'
  /\ exists n,
       (n <= 500)%nat
       /\ records t'
          = firstn n (accepted_events w 0 (repositories one_repository)).
Proof.
  intros w t'.
  assert (H : database (fst (update_data w one_repository empty_frame))
              = Some t') by reflexivity.
  split; [exact H|].
  exact (X11_store_is_prefix_of_accepted_events w one_repository empty_frame
           t' H).
Defined.

(** X12.  A cycle that succeeds rebuilds the table from nothing: whatever
    the table held before, it then holds exactly the accepted events of
    this cycle, all of them, in the order they were fetched, numbered from
    1, and there are at most 500 of them. *)
Theorem X12_successful_cycle_stores_all_accepted_events
    (w : World) (cfg : Config) (f f' : Frame) :
  update_data w cfg f = (f', Return "Data were updated.") ->
  let qs := accepted_events w (clock_reads f) (repositories cfg) in
  database f' = Some (fold_left store_record qs empty_table)
  /\ records (fold_left store_record qs empty_table) = qs
  /\ (List.length qs <= 500)%nat.
Proof.
  intros Hrun qs.
  destruct (database f) as [t0|] eqn:Hdb.
  2:{ unfold update_data in Hrun. rewrite update_data_with_eq, Hdb in Hrun.
      discriminate. }
  destruct (update_data_prefix w cfg f t0 Hdb)
    as (n & Hdb' & _ & Hn & _ & _ & Hall).
  rewrite Hrun in Hdb', Hall. cbn [fst snd] in Hdb', Hall.
  specialize (Hall _ eq_refl). fold qs in Hdb', Hall. subst n.
  rewrite firstn_all in Hdb'.
  split; [exact Hdb'|]. split; [apply records_stored|exact Hn].
Qed.

Lemma X12_successful_cycle_stores_all_accepted_events_witness :
  let w := mkWorld (fun _ _ => JsonBody [pushed_at (seconds 4);
                                         pushed_at (seconds 1)])
                   (fun _ => seconds 5) in
  let stale := mkFrame (Some (mkTable [mkRow 7 "octocat" "hello" (seconds 0)
                                             "ForkEvent"] 8)) 0 1 in
  let qs := [("octocat", "hello", seconds 4, "PushEvent");
             ("octocat", "hello", seconds 1, "PushEvent")] in
  let f' := mkFrame (Some (mkTable [pushed 1 (seconds 4);
                                    pushed 2 (seconds 1)] 3)) 2 2 in
  update_data w one_repository stale = (f', Return "Data were updated.")
  /\ database f' = Some (fold_left store_record qs empty_table)
  /\ records (fold_left store_record qs empty_table) = qs
  /\ (List.length qs <= 500)%nat.
Proof.
  intros w stale qs f'.
  assert (Hrun : update_data w one_repository stale
                 = (f', Return "Data were updated.")) by reflexivity.
  split; [exact Hrun|].
  exact (X12_successful_cycle_stores_all_accepted_events
           w one_repository stale f' Hrun).
Defined.



(** X14.  A cycle ends with the syntax error of the DELETE exactly on a full
    table: the table then holds 500 rows, the first 500 accepted events of
    the cycle; the event that came next, and every later one, is not
    stored. *)
Theorem X14_syntax_error_leaves_first_500_events
    (w : World) (cfg : Config) (f : Frame) :
  snd (update_data w cfg f) = Raise SyntaxError ->
  exists t',
    database (fst (update_data w cfg f)) = Some t'
    /\ records t'
       = firstn 500 (accepted_events w (clock_reads f) (repositories cfg))
    /\ List.length (rows t') = 500%nat.
Proof.
  intros Hsyn.
  destruct (database f) as [t0|] eqn:Hdb.
  2:{ unfold update_data in Hsyn. rewrite update_data_with_eq, Hdb in Hsyn.
      discriminate. }
  destruct (update_data_prefix w cfg f t0 Hdb)
    as (n & Hdb' & Hlen & _ & Hfull & _).
  specialize (Hfull Hsyn). subst n.
  eexists. split; [exact Hdb'|]. split; [apply records_stored|].
  rewrite <- records_length, records_stored, length_firstn. lia.
Qed.

Lemma X14_syntax_error_leaves_first_500_events_witness :
  snd (update_data long_feed one_repository empty_frame) = Raise SyntaxError
  /\ exists t',
       database (fst (update_data long_feed one_repository empty_frame))
         = Some t'
       /\ records t'
          = firstn 500 (accepted_events long_feed 0
                          (repositories one_repository))
       /\ List.length (rows t') = 500%nat.
Proof.
  assert (H : snd (update_data long_feed one_repository empty_frame)
              = Raise SyntaxError) by (vm_compute; reflexivity).
  split; [exact H|].
  exact (X14_syntax_error_leaves_first_500_events
           long_feed one_repository empty_frame H).
Defined.
